(** * Garden context: plugin registry, action dispatch, environment and
      module discovery

    A shallow embedding of [src/context.ts] (class [GardenContext]) and the
    properties of its registry, its two handler resolutions, its environment
    accessors and its memoised module discovery.

    JavaScript objects used as dictionaries are finite maps ([gmap string]),
    except where the order of enumeration matters: [this.plugins], whose
    order decides which handler is resolved, is an ordered list of entries
    following the property order of the language (array-index keys first,
    ascending, then the other keys in insertion order), and the services of a
    declaration are listed in the order the loop visits them.  Exceptions are
    the [Throw] outcome; an [async] method is run to completion before the
    next call starts.

    A truthiness test [o[k]] on a plain object also sees the members that
    every object inherits from [Object.prototype]: such a read is modelled by
    [readMap] and [JsObject.read], which find an own value or an inherited
    member. *)

From Stdlib Require Import String Ascii List NArith Bool Lia.
From stdpp Require Import base option list strings gmap fin_maps.

Local Open Scope string_scope.

(** ** Strings: [split], [join] *)

(** [s.split(".")]: never empty, one more segment than there are dots. *)
Fixpoint split_dot (s : string) : list string :=
  match s with
  | EmptyString => [EmptyString]
  | String c rest =>
      if Ascii.eqb c "."%char then EmptyString :: split_dot rest
      else match split_dot rest with
           | seg :: segs => String c seg :: segs
           | [] => [String c EmptyString]
           end
  end.

(** [segs.join(".")] *)
Fixpoint join_dot (segs : list string) : string :=
  match segs with
  | [] => EmptyString
  | [seg] => seg
  | seg :: more => seg ++ "." ++ join_dot more
  end.

(** [xs.includes(x)] on an array of strings. *)
Definition includes (x : string) (xs : list string) : bool :=
  existsb (String.eqb x) xs.

(** [a || b] on strings: the empty string is falsy. *)
Definition or_else (a b : string) : string :=
  if String.eqb a "" then b else a.

(** Whether a character occurs in a string. *)
Fixpoint has_char (c : ascii) (s : string) : bool :=
  match s with
  | EmptyString => false
  | String d rest => Ascii.eqb c d || has_char c rest
  end.

(** ** Plain objects *)

(** The names every plain object inherits from [Object.prototype]; what is
    read under each of them is a function or an object, hence truthy. *)
Definition objectPrototypeNames : list string :=
  ["constructor"; "__defineGetter__"; "__defineSetter__"; "hasOwnProperty";
   "__lookupGetter__"; "__lookupSetter__"; "isPrototypeOf";
   "propertyIsEnumerable"; "toString"; "valueOf"; "__proto__";
   "toLocaleString"].

Definition inherited (k : string) : bool := includes k objectPrototypeNames.

(** What a read [o[k]] finds on a plain object whose own values are objects:
    an own value, or the member of [Object.prototype] of that name. *)
Inductive Found (V : Type) : Type :=
  | Own (v : V)
  | Inherited (k : string).
Arguments Own {V} v.
Arguments Inherited {V} k.

(** ** Objects with ordered keys *)

Module JsObject.

Definition t (V : Type) : Type := list (string * V).

Definition digit (c : ascii) : option N :=
  let n := N_of_ascii c in
  if ((48 <=? n) && (n <=? 57))%N then Some (n - 48)%N else None.

Fixpoint digits (acc : N) (s : string) : option N :=
  match s with
  | EmptyString => Some acc
  | String c rest =>
      match digit c with
      | Some d => digits (10 * acc + d)%N rest
      | None => None
      end
  end.

(** A key is an array index when it is the canonical decimal form of an
    integer below [2^32 - 1]. *)
Definition arrayIndex (k : string) : option N :=
  match k with
  | EmptyString => None
  | String c rest =>
      if Ascii.eqb c "0"%char && negb (String.eqb rest "") then None
      else match digits 0 k with
           | Some n => if (n <? 4294967295)%N then Some n else None
           | None => None
           end
  end.

Section Operations.
Context {V : Type}.

Definition empty : t V := [].

(** [o[k]] *)
Fixpoint get (k : string) (o : t V) : option V :=
  match o with
  | [] => None
  | (k', v) :: rest => if String.eqb k k' then Some v else get k rest
  end.

Fixpoint replace (k : string) (v : V) (o : t V) : t V :=
  match o with
  | [] => []
  | (k', v') :: rest =>
      if String.eqb k k' then (k', v) :: rest else (k', v') :: replace k v rest
  end.

Fixpoint insertIndex (i : N) (k : string) (v : V) (o : t V) : t V :=
  match o with
  | [] => [(k, v)]
  | (k', v') :: rest =>
      match arrayIndex k' with
      | Some j =>
          if (j <? i)%N then (k', v') :: insertIndex i k v rest
          else (k, v) :: o
      | None => (k, v) :: o
      end
  end.

(** [o[k] = v]: an existing key keeps its place; a new array index goes to
    its numeric position among the indices; any other new key goes last. *)
Definition set (k : string) (v : V) (o : t V) : t V :=
  match get k o with
  | Some _ => replace k v o
  | None =>
      match arrayIndex k with
      | Some i => insertIndex i k v o
      | None => (o ++ [(k, v)])%list
      end
  end.

(** [o[k]] through the prototype chain. *)
Definition read (k : string) (o : t V) : option (Found V) :=
  match get k o with
  | Some v => Some (Own v)
  | None => if inherited k then Some (Inherited k) else None
  end.

Definition keys (o : t V) : list string := map fst o.

(** lodash [values(o)] *)
Definition values (o : t V) : list V := map snd o.

End Operations.

End JsObject.

(** ** Data model *)

(** A value of type [any]: a raw configuration fragment, kept as its text. *)
Definition Any : Type := string.

(** [keyof PluginActions]: the keys of the [actionHandlers] literal built by
    the constructor. *)
Inductive ActionName : Type :=
  | parseModule
  | getModuleBuildStatus
  | buildModule.

Definition actionLabel (a : ActionName) : string :=
  match a with
  | parseModule => "parseModule"
  | getModuleBuildStatus => "getModuleBuildStatus"
  | buildModule => "buildModule"
  end.

(** Modelled from the spec: [pluginActionNames] (declared in [types/plugin])
    lists the recognised capability names: parse-module, get-build-status,
    build-module. *)
Definition pluginActionNames : list ActionName :=
  [parseModule; getModuleBuildStatus; buildModule].

(** The declaration of a module as the loader returns it; [cfg_services]
    lists the own keys of [config.services] in enumeration order, each with
    the value stored under it, and is [None] when the property is absent. *)
Record ModuleConfig : Type := {
  cfg_name : string;
  cfg_type : string;
  cfg_services : option (JsObject.t Any);
}.

(** Modelled from the spec: a module has a name, a declared type, a path and
    a typed configuration (class [Module] of [types/module]). *)
Record GardenModule : Type := {
  mod_name : string;
  mod_type : string;
  mod_path : string;
  mod_config : ModuleConfig;
}.

Record Service : Type := {
  svc_module : GardenModule;
  svc_config : Any;
}.

(** [PluginActions<any>[A]]: the type of the implementation of an action.
    The context passed as first argument is not inspected by the model; the
    two build capabilities are only stored and handed back. *)
Definition ActionFn (action : ActionName) : Type :=
  match action with
  | parseModule => ModuleConfig -> GardenModule
  | getModuleBuildStatus => GardenModule -> bool
  | buildModule => GardenModule -> Any
  end.

Record PluginInterface : Type := {
  plugin_name : string;
  supportedModuleTypes : list string;
  plugin_parseModule : option (ModuleConfig -> GardenModule);
  plugin_getModuleBuildStatus : option (GardenModule -> bool);
  plugin_buildModule : option (GardenModule -> Any);
}.

(** [plugin[action]] *)
Definition pluginAction (plugin : PluginInterface) (action : ActionName)
  : option (ActionFn action) :=
  match action with
  | parseModule => plugin_parseModule plugin
  | getModuleBuildStatus => plugin_getModuleBuildStatus plugin
  | buildModule => plugin_buildModule plugin
  end.

(** Truthiness of [plugin[action]]. *)
Definition implements (plugin : PluginInterface) (action : ActionName) : bool :=
  match pluginAction plugin action with Some _ => true | None => false end.

(** [(...args) => actionHandler.apply(plugin, args)] *)
Record BoundHandler (action : ActionName) : Type := {
  bound_this : PluginInterface;
  bound_fn : ActionFn action;
}.
Arguments bound_this {action} _.
Arguments bound_fn {action} _.

(** The project configuration as [context.ts] reads it (its type is declared
    in [types/project-config]): environments by name, each with its provider
    slots, each slot with the type of its provider. *)
Record Provider : Type := { provider_type : string }.

Record EnvironmentConfig : Type := {
  providers : gmap string Provider;
}.

Record ProjectConfig : Type := {
  environments : gmap string EnvironmentConfig;
}.

(** The object [getEnvironment] returns; [namespace] and [config] are read
    from the context as they are, so either may be [undefined]. *)
Record Environment : Type := {
  env_name : string;
  env_namespace : option string;
  env_config : option (Found EnvironmentConfig);
}.

(** ** Errors *)

(** The detail object given to an error constructor. *)
Inductive Detail : Type :=
  | NoDetail
  | EnvironmentDetail (name namespace : string)
  | DeclaredTwiceDetail (previous : Found PluginInterface) (adding : PluginInterface)
  | ModulePathsDetail (pathA : option string) (pathB : string)
  | ServiceModulesDetail (serviceName moduleA moduleB : string)
  | HandlerDetail (requestedHandlerType : ActionName)
      (requestedModuleType : option string)
  | EnvHandlerDetail (requestedHandlerType : ActionName)
      (requestedModuleType : option string) (environment : string).

(** What can be thrown: the three error classes of [exceptions], the
    validation error of [Joi.attempt], a run-time [TypeError], and whatever
    a configuration loader raises. *)
Inductive Exception : Type :=
  | ConfigurationError (message : string) (detail : Detail)
  | ParameterError (message : string) (detail : Detail)
  | PluginError (message : string) (detail : Detail)
  | ValidationError (value : string)
  | TypeError (message : string)
  | LoaderError (message : string).


Inductive Outcome (A : Type) : Type :=
  | Return (a : A)
  | Throw (e : Exception).
Arguments Return {A} a.
Arguments Throw {A} e.

#[global] Instance Outcome_ret : MRet Outcome := λ A a, Return a.
#[global] Instance Outcome_bind : MBind Outcome := λ A B f o,
  match o with
  | Return a => f a
  | Throw e => Throw e
  end.

Definition returned {A} (o : Outcome A) : bool :=
  match o with Return _ => true | Throw _ => false end.

(** ** The context *)

(** [PluginActionMap]: per action, the bound handlers by plugin name. *)
Record PluginActionMap : Type := {
  handlers_parseModule : gmap string (BoundHandler parseModule);
  handlers_getModuleBuildStatus : gmap string (BoundHandler getModuleBuildStatus);
  handlers_buildModule : gmap string (BoundHandler buildModule);
}.

(** [actionHandlers[action]] *)
Definition handlersOf (action : ActionName) (h : PluginActionMap)
  : gmap string (BoundHandler action) :=
  match action with
  | parseModule => handlers_parseModule h
  | getModuleBuildStatus => handlers_getModuleBuildStatus h
  | buildModule => handlers_buildModule h
  end.

(** [actionHandlers[action][pluginName] = handler] *)
Definition setHandler (action : ActionName) (pluginName : string)
  : BoundHandler action -> PluginActionMap -> PluginActionMap :=
  match action with
  | parseModule => λ handler h,
      {| handlers_parseModule := <[pluginName := handler]> (handlers_parseModule h);
         handlers_getModuleBuildStatus := handlers_getModuleBuildStatus h;
         handlers_buildModule := handlers_buildModule h |}
  | getModuleBuildStatus => λ handler h,
      {| handlers_parseModule := handlers_parseModule h;
         handlers_getModuleBuildStatus :=
           <[pluginName := handler]> (handlers_getModuleBuildStatus h);
         handlers_buildModule := handlers_buildModule h |}
  | buildModule => λ handler h,
      {| handlers_parseModule := handlers_parseModule h;
         handlers_getModuleBuildStatus := handlers_getModuleBuildStatus h;
         handlers_buildModule := <[pluginName := handler]> (handlers_buildModule h) |}
  end.

(** The fields of [GardenContext] that the class itself reads and writes.
    A field that has not been assigned yet is [None]. *)
Record GardenContext : Type := {
  projectRoot : string;
  config : option ProjectConfig;
  environment : option string;
  namespace : option string;
  plugins : JsObject.t PluginInterface;
  actionHandlers : PluginActionMap;
  modules : option (gmap string GardenModule);
  services : option (gmap string Service);
}.

Definition PluginFactory : Type := GardenContext -> PluginInterface.

Record ParsedPath : Type := { dir : string; base : string }.

(** What [context.ts] imports and this development does not define: the two
    constants, the identifier schema, the four built-in handler classes, the
    project configuration loader and the two functions of [path]. *)
Record Imports : Type := {
  DEFAULT_NAMESPACE : string;
  MODULE_CONFIG_FILENAME : string;
  JoiIdentifier : string -> bool;
  GenericModuleHandler : PluginFactory;
  ContainerModuleHandler : PluginFactory;
  GenericFunctionModuleHandler : PluginFactory;
  NpmPackageModuleHandler : PluginFactory;
  loadProjectConfig : string -> Outcome ProjectConfig;
  parse : string -> ParsedPath;
  relative : string -> string -> string;
}.

(** The project tree as one discovery pass sees it: the paths the scanner
    walks under the root, the ignore predicate of [getIgnorer], and what
    [loadModuleConfig] returns for a module directory. *)
Record FileSystem : Type := {
  walk : list string;
  ignores : string -> bool;
  loadModuleConfig : string -> Outcome ModuleConfig;
}.

(** A context together with the number of directory scans started on its
    behalf (the counter of an instrumented scanner). *)
Record Machine : Type := {
  this : GardenContext;
  scanCount : nat;
}.

(** Field assignments. *)
Definition withConfig (c : ProjectConfig) (g : GardenContext) : GardenContext :=
  {| projectRoot := projectRoot g; config := Some c;
     environment := environment g; namespace := namespace g;
     plugins := plugins g; actionHandlers := actionHandlers g;
     modules := modules g; services := services g |}.

Definition withEnvironment (name ns : string) (g : GardenContext) : GardenContext :=
  {| projectRoot := projectRoot g; config := config g;
     environment := Some name; namespace := Some ns;
     plugins := plugins g; actionHandlers := actionHandlers g;
     modules := modules g; services := services g |}.

Definition withPlugin (ps : JsObject.t PluginInterface) (h : PluginActionMap)
    (g : GardenContext) : GardenContext :=
  {| projectRoot := projectRoot g; config := config g;
     environment := environment g; namespace := namespace g;
     plugins := ps; actionHandlers := h;
     modules := modules g; services := services g |}.

Definition withIndexes (ms : gmap string GardenModule) (ss : gmap string Service)
    (g : GardenContext) : GardenContext :=
  {| projectRoot := projectRoot g; config := config g;
     environment := environment g; namespace := namespace g;
     plugins := plugins g; actionHandlers := actionHandlers g;
     modules := Some ms; services := Some ss |}.

(** The string when it is truthy: present and not empty. *)
Definition truthy (s : option string) : option string :=
  match s with
  | Some t => if String.eqb t "" then None else Some t
  | None => None
  end.

(** [o[k]] on a plain object kept as a finite map, through the prototype
    chain. *)
Definition readMap {V : Type} (k : string) (o : gmap string V) : option (Found V) :=
  match o !! k with
  | Some v => Some (Own v)
  | None => if inherited k then Some (Inherited k) else None
  end.

(** [String(x)] for a string that may be [undefined]. *)
Definition orUndefined (x : option string) : string := default "undefined" x.

(** What [getModules] and [getServices] hand back: an index itself, or the
    object that lodash's [pick] builds from an index and a list of names.
    [pick] belongs to the library (it follows property paths and the
    prototype chain) and is not interpreted here. *)
Inductive Selection (V : Type) : Type :=
  | Whole (o : gmap string V)
  | pick (o : gmap string V) (names : list string).
Arguments Whole {V} o.
Arguments pick {V} o names.

(** [names === undefined ? o : pick(o, names)] *)
Definition allOrPick {V : Type} (o : gmap string V) (names : option (list string))
  : Selection V :=
  match names with
  | None => Whole o
  | Some ns => pick o ns
  end.

(** [Joi.attempt(value, schema)]: the value when the schema accepts it, and
    otherwise the library's validation error. *)
Definition Joi_attempt (schema : string -> bool) (value : string) : Outcome string :=
  if schema value then Return value else Throw (ValidationError value).

(** ** The methods of [GardenContext] *)

Section Methods.

Variable X : Imports.

Definition builtinPlugins : list PluginFactory :=
  [ GenericModuleHandler X;
    ContainerModuleHandler X;
    GenericFunctionModuleHandler X;
    NpmPackageModuleHandler X ].

(** One turn of the loop over [pluginActionNames] in [registerPlugin]. *)
Definition bindAction (pluginName : string) (plugin : PluginInterface)
    (h : PluginActionMap) (action : ActionName) : PluginActionMap :=
  match pluginAction plugin action with
  | Some actionHandler =>
      setHandler action pluginName
        {| bound_this := plugin; bound_fn := actionHandler |} h
  | None => h
  end.

Definition registerPlugin (pluginFactory : PluginFactory) (g : GardenContext)
  : Outcome unit * GardenContext :=
  let plugin := pluginFactory g in
  match Joi_attempt (JoiIdentifier X) (plugin_name plugin) with
  | Throw e => (Throw e, g)
  | Return pluginName =>
      match JsObject.read pluginName (plugins g) with
      | Some previous =>
          (Throw (PluginError
                    ("Plugin " ++ pluginName ++ " declared more than once")
                    (DeclaredTwiceDetail previous plugin)), g)
      | None =>
          let plugins' := JsObject.set pluginName plugin (plugins g) in
          let handlers' :=
            fold_left (bindAction pluginName plugin) pluginActionNames
              (actionHandlers g) in
          (Return (), withPlugin plugins' handlers' g)
      end
  end.

(** The state the constructor has built before the built-ins are loaded. *)
Definition blank (root : string) : GardenContext :=
  {| projectRoot := root; config := None;
     environment := None; namespace := None;
     plugins := JsObject.empty;
     actionHandlers :=
       {| handlers_parseModule := ∅;
          handlers_getModuleBuildStatus := ∅;
          handlers_buildModule := ∅ |};
     modules := None; services := None |}.

(** [for (const pluginCls of builtinPlugins) this.registerPlugin(...)] *)
Fixpoint registerAll (factories : list PluginFactory) (g : GardenContext)
  : Outcome unit * GardenContext :=
  match factories with
  | [] => (Return (), g)
  | f :: rest =>
      match registerPlugin f g with
      | (Return _, g') => registerAll rest g'
      | (Throw e, g') => (Throw e, g')
      end
  end.

(** The constructor, from the assignment of [this.plugins] on.  The logger,
    the VCS handler and the task graph it creates first are fields this
    development does not follow; they and the built-in classes are taken
    to be constructed without error. *)
Definition constructor (root : string) : Outcome GardenContext :=
  match registerAll builtinPlugins (blank root) with
  | (Throw e, _) => Throw e
  | (Return _, g) =>
      c ← loadProjectConfig X root;
      Return (withConfig c g)
  end.

Definition setEnvironment (selector : string) (g : GardenContext)
  : Outcome (string * string) * GardenContext :=
  let parts := split_dot selector in
  let name := hd "" parts in
  let ns := or_else (join_dot (tl parts)) (DEFAULT_NAMESPACE X) in
  match config g with
  | None => (Throw (TypeError "Cannot read property 'environments' of undefined"), g)
  | Some c =>
      match readMap name (environments c) with
      | None =>
          (Throw (ParameterError ("Could not find environment " ++ selector)
                    (EnvironmentDetail name ns)), g)
      | Some _ => (Return (name, ns), withEnvironment name ns g)
      end
  end.

Definition getEnvironment (g : GardenContext) : Outcome Environment :=
  match truthy (environment g) with
  | None => Throw (PluginError "Environment has not been set" NoDetail)
  | Some name =>
      match config g with
      | None => Throw (TypeError "Cannot read property 'environments' of undefined")
      | Some c =>
          Return {| env_name := name;
                    env_namespace := namespace g;
                    env_config := readMap name (environments c) |}
      end
  end.

Definition getAllPlugins (moduleType : option string) (g : GardenContext)
  : list PluginInterface :=
  let allPlugins := JsObject.values (plugins g) in
  match truthy moduleType with
  | Some t => List.filter (λ p, includes t (supportedModuleTypes p)) allPlugins
  | None => allPlugins
  end.

Definition getEnvPlugins (moduleType : option string) (g : GardenContext)
  : Outcome (list PluginInterface) :=
  env ← getEnvironment g;
  let allPlugins := getAllPlugins moduleType g in
  match env_config env with
  | None => Throw (TypeError "Cannot read property 'providers' of undefined")
  | Some c =>
      let envProviderTypes :=
        match c with
        | Own block => map provider_type (map snd (map_to_list (providers block)))
        | Inherited _ => []
        end in
      Return (List.filter (λ p, includes (plugin_name p) envProviderTypes) allPlugins)
  end.

(** The scan shared by both resolutions: skip the plugins without the
    action, return what [actionHandlers] holds for the first with it
    ([None] inside when no entry is stored under that name). *)
Fixpoint firstHandler (type : ActionName) (h : PluginActionMap)
    (ps : list PluginInterface) : option (option (BoundHandler type)) :=
  match ps with
  | [] => None
  | plugin :: rest =>
      if negb (implements plugin type) then firstHandler type h rest
      else Some (handlersOf type h !! plugin_name plugin)
  end.

Definition getActionHandler (type : ActionName) (moduleType : option string)
    (g : GardenContext) : Outcome (option (BoundHandler type)) :=
  let ps := getAllPlugins moduleType g in
  match firstHandler type (actionHandlers g) ps with
  | Some handler => Return handler
  | None =>
      let msg := "No handler for " ++ actionLabel type ++ " configured" in
      let msg :=
        match truthy moduleType with
        | Some t => msg ++ " for module type " ++ t
        | None => msg
        end in
      Throw (ParameterError msg (HandlerDetail type moduleType))
  end.

Definition getEnvActionHandler (type : ActionName) (moduleType : option string)
    (g : GardenContext) : Outcome (option (BoundHandler type)) :=
  ps ← getEnvPlugins moduleType g;
  match firstHandler type (actionHandlers g) ps with
  | Some handler => Return handler
  | None =>
      env ← getEnvironment g;
      let msg :=
        "No handler for " ++ actionLabel type
          ++ " configured for environment " ++ env_name env in
      let msg :=
        match truthy moduleType with
        | Some t => msg ++ " and module type " ++ t
        | None => msg
        end in
      Throw (ParameterError msg (EnvHandlerDetail type moduleType (env_name env)))
  end.

(** Modelled from the spec: [scanDirectory(root, { filter })] (declared in
    [util]) yields the finite sequence of the entries under the root that
    pass the filter, in traversal order. *)
Definition scanDirectory (fs : FileSystem) (root : string)
    (keep : string -> bool) : list string :=
  List.filter keep (walk fs).

(** The loop over the service names of one declaration. *)
Fixpoint addServices (module : GardenModule) (moduleName : string)
    (entries : JsObject.t Any) (services : gmap string Service)
  : Outcome (gmap string Service) :=
  match entries with
  | [] => Return services
  | (serviceName, serviceConfig) :: rest =>
      match readMap serviceName services with
      | Some (Inherited _) =>
          Throw (TypeError "Cannot read property 'name' of undefined")
      | Some (Own s) =>
          Throw (ConfigurationError
                   ("Service names must be unique - " ++ serviceName
                      ++ " is declared multiple times "
                      ++ "(in '" ++ mod_name (svc_module s) ++ "' and '"
                      ++ moduleName ++ "')")
                   (ServiceModulesDetail serviceName
                      (mod_name (svc_module s)) moduleName))
      | None =>
          addServices module moduleName rest
            (<[serviceName :=
                 {| svc_module := module; svc_config := serviceConfig |}]> services)
      end
  end.

(** [parseHandler(this, config)] *)
Definition callParse (handler : option (BoundHandler parseModule))
    (cfg : ModuleConfig) : Outcome GardenModule :=
  match handler with
  | Some h => Return (bound_fn h cfg)
  | None => Throw (TypeError "parseHandler is not a function")
  end.

(** The body of the loop over the scanned items. *)
Definition indexItem (fs : FileSystem) (g : GardenContext)
    (acc : gmap string GardenModule * gmap string Service) (item : string)
  : Outcome (gmap string GardenModule * gmap string Service) :=
  let parsedPath := parse X item in
  if String.eqb (base parsedPath) (MODULE_CONFIG_FILENAME X) then
    let modulePath := dir parsedPath in
    cfg ← loadModuleConfig fs modulePath;
    match readMap (cfg_name cfg) acc.1 with
    | Some previous =>
        let pathA :=
          match previous with
          | Own m => Some (mod_path m)
          | Inherited _ => None
          end in
        let pathB := relative X (projectRoot g) item in
        Throw (ConfigurationError
                 ("Module " ++ cfg_name cfg ++ " is declared multiple times ('"
                    ++ orUndefined pathA ++ "' and '" ++ pathB ++ "')")
                 (ModulePathsDetail pathA pathB))
    | None =>
        parseHandler ← getActionHandler parseModule (Some (cfg_type cfg)) g;
        module ← callParse parseHandler cfg;
        let modules' := <[cfg_name cfg := module]> acc.1 in
        services' ← addServices module (cfg_name cfg)
                      (default [] (cfg_services cfg)) acc.2;
        Return (modules', services')
    end
  else Return acc.

Fixpoint indexItems (fs : FileSystem) (g : GardenContext) (items : list string)
    (acc : gmap string GardenModule * gmap string Service)
  : Outcome (gmap string GardenModule * gmap string Service) :=
  match items with
  | [] => Return acc
  | item :: rest =>
      acc' ← indexItem fs g acc item;
      indexItems fs g rest acc'
  end.

(** The items one discovery pass goes through. *)
Definition scannedItems (fs : FileSystem) (root : string) : list string :=
  scanDirectory fs root (λ path, negb (ignores fs (relative X root path))).

Definition getModules (fs : FileSystem) (names : option (list string))
    (s : Machine) : Outcome (Selection GardenModule) * Machine :=
  match modules (this s) with
  | Some ms => (Return (allOrPick ms names), s)
  | None =>
      let scanned := S (scanCount s) in
      let items := scannedItems fs (projectRoot (this s)) in
      match indexItems fs (this s) items (∅, ∅) with
      | Throw e => (Throw e, {| this := this s; scanCount := scanned |})
      | Return (ms, ss) =>
          (Return (allOrPick ms names),
           {| this := withIndexes ms ss (this s); scanCount := scanned |})
      end
  end.

(** [names === undefined ? this.services : pick(this.services, names)];
    [pick] of [undefined] is an empty object. *)
Definition getServices (fs : FileSystem) (names : option (list string))
    (s : Machine) : Outcome (option (Selection Service)) * Machine :=
  match getModules fs None s with
  | (Throw e, s') => (Throw e, s')
  | (Return _, s') =>
      (Return match names, services (this s') with
              | None, ss => Whole <$> ss
              | Some ns, Some ss => Some (pick ss ns)
              | Some ns, None => Some (Whole ∅)
              end, s')
  end.

(** ** Sequences of calls on one context *)

Inductive Call : Type :=
  | SetEnvironment (selector : string)
  | GetEnvironment
  | RegisterPlugin (pluginFactory : PluginFactory)
  | GetModules (fs : FileSystem) (names : option (list string))
  | GetServices (fs : FileSystem) (names : option (list string))
  | GetActionHandler (type : ActionName) (moduleType : option string)
  | GetEnvActionHandler (type : ActionName) (moduleType : option string).

(** The context and scan counter a call leaves behind, whether it returned
    or threw. *)
Definition step (s : Machine) (c : Call) : Machine :=
  match c with
  | SetEnvironment selector =>
      {| this := (setEnvironment selector (this s)).2; scanCount := scanCount s |}
  | RegisterPlugin f =>
      {| this := (registerPlugin f (this s)).2; scanCount := scanCount s |}
  | GetModules fs names => (getModules fs names s).2
  | GetServices fs names => (getServices fs names s).2
  | GetEnvironment | GetActionHandler _ _ | GetEnvActionHandler _ _ => s
  end.

Definition run (calls : list Call) (s : Machine) : Machine :=
  fold_left step calls s.

(** Whether a call returns rather than throws in a given state. *)
Definition succeeds (s : Machine) (c : Call) : bool :=
  match c with
  | SetEnvironment selector => returned (setEnvironment selector (this s)).1
  | RegisterPlugin f => returned (registerPlugin f (this s)).1
  | GetModules fs names => returned (getModules fs names s).1
  | GetServices fs names => returned (getServices fs names s).1
  | GetEnvironment => returned (getEnvironment (this s))
  | GetActionHandler type moduleType =>
      returned (getActionHandler type moduleType (this s))
  | GetEnvActionHandler type moduleType =>
      returned (getEnvActionHandler type moduleType (this s))
  end.

(** A freshly constructed context, before any scan. *)
Definition fresh (root : string) : Outcome Machine :=
  g ← constructor root;
  Return {| this := g; scanCount := 0 |}.

End Methods.

(** ** A small project used to exercise the methods *)

Module Fixture.

Definition lower (c : ascii) : bool :=
  let n := N_of_ascii c in ((97 <=? n) && (n <=? 122))%N.

Definition alnum (c : ascii) : bool :=
  lower c || match JsObject.digit c with Some _ => true | None => false end.

(** After an alphanumeric character: more of them, or a dash that must be
    followed by one. *)
Fixpoint tailOk (afterDash : bool) (s : string) : bool :=
  match s with
  | EmptyString => negb afterDash
  | String c rest =>
      if alnum c then tailOk false rest
      else if Ascii.eqb c "-"%char then negb afterDash && tailOk true rest
      else false
  end.

(** Lower-case letters, digits and single dashes, starting with a letter
    and not ending with a dash. *)
Definition identifier (s : string) : bool :=
  match s with
  | EmptyString => false
  | String c rest => lower c && tailOk false rest
  end.

Fixpoint basename (s : string) : string :=
  match s with
  | EmptyString => EmptyString
  | String c rest =>
      if has_char "/"%char rest then basename rest
      else if Ascii.eqb c "/"%char then rest else s
  end.

Fixpoint dirname (s : string) : string :=
  match s with
  | EmptyString => EmptyString
  | String c rest =>
      if has_char "/"%char rest then String c (dirname rest) else EmptyString
  end.

Fixpoint stripPrefix (pre s : string) : option string :=
  match pre, s with
  | EmptyString, _ => Some s
  | String a pre', String b s' =>
      if Ascii.eqb a b then stripPrefix pre' s' else None
  | String _ _, EmptyString => None
  end.

Definition relativeTo (root path : string) : string :=
  default path (stripPrefix (root ++ "/") path).

(** A parse handler that keeps the declaration and records the module
    under a directory of the project. *)
Definition parseUnder (root : string) (cfg : ModuleConfig) : GardenModule :=
  {| mod_name := cfg_name cfg; mod_type := cfg_type cfg;
     mod_path := root ++ "/" ++ cfg_name cfg; mod_config := cfg |}.

Definition generic : PluginInterface :=
  {| plugin_name := "generic"; supportedModuleTypes := ["generic"];
     plugin_parseModule := Some (parseUnder "/project");
     plugin_getModuleBuildStatus := Some (λ _, false);
     plugin_buildModule := Some (λ m, "built " ++ mod_name m) |}.

Definition container : PluginInterface :=
  {| plugin_name := "container"; supportedModuleTypes := ["container"];
     plugin_parseModule := Some (parseUnder "/project");
     plugin_getModuleBuildStatus := Some (λ _, true);
     plugin_buildModule := Some (λ m, "image " ++ mod_name m) |}.

Definition function : PluginInterface :=
  {| plugin_name := "function"; supportedModuleTypes := ["function"];
     plugin_parseModule := Some (parseUnder "/project");
     plugin_getModuleBuildStatus := None;
     plugin_buildModule := None |}.

Definition npm : PluginInterface :=
  {| plugin_name := "npm-package"; supportedModuleTypes := ["npm-package"];
     plugin_parseModule := Some (parseUnder "/project");
     plugin_getModuleBuildStatus := None;
     plugin_buildModule := Some (λ m, "packed " ++ mod_name m) |}.

(** An external plugin: a second builder for container modules. *)
Definition kube : PluginInterface :=
  {| plugin_name := "kube"; supportedModuleTypes := ["container"];
     plugin_parseModule := None;
     plugin_getModuleBuildStatus := Some (λ _, true);
     plugin_buildModule := Some (λ m, "pushed " ++ mod_name m) |}.



(** A plugin whose name the identifier grammar accepts and every object
    inherits. *)
Definition inheritedName : PluginInterface :=
  {| plugin_name := "constructor"; supportedModuleTypes := ["generic"];
     plugin_parseModule := None;
     plugin_getModuleBuildStatus := None;
     plugin_buildModule := None |}.

Definition project : ProjectConfig :=
  {| environments :=
       <["prod" := {| providers := <["cluster" := {| provider_type := "kube" |}]> ∅ |}]>
       (<["dev" := {| providers := <["docker" := {| provider_type := "container" |}]> ∅ |}]>
        ∅) |}.

Definition imports : Imports :=
  {| DEFAULT_NAMESPACE := "default";
     MODULE_CONFIG_FILENAME := "garden.yml";
     JoiIdentifier := identifier;
     GenericModuleHandler := λ _, generic;
     ContainerModuleHandler := λ _, container;
     GenericFunctionModuleHandler := λ _, function;
     NpmPackageModuleHandler := λ _, npm;
     loadProjectConfig := λ _, Return project;
     parse := λ p, {| dir := dirname p; base := basename p |};
     relative := relativeTo |}.



Definition declaration (name type : string) (svcs : list string) : ModuleConfig :=
  {| cfg_name := name; cfg_type := type;
     cfg_services := Some (map (λ s, (s, "{}")) svcs) |}.

(** Two modules with one service each. *)
Definition tree : FileSystem :=
  {| walk := ["/project/README.md"; "/project/api/garden.yml";
              "/project/api/main.go"; "/project/web/garden.yml"];
     ignores := λ _, false;
     loadModuleConfig := λ d,
       if String.eqb d "/project/api" then Return (declaration "api" "container" ["api"])
       else if String.eqb d "/project/web" then Return (declaration "web" "generic" ["web"])
       else Throw (LoaderError ("no module declaration in " ++ d)) |}.

(** The same module name declared in two directories. *)
Definition twice : FileSystem :=
  {| walk := ["/project/api/garden.yml"; "/project/vendor/api/garden.yml"];
     ignores := λ _, false;
     loadModuleConfig := λ _, Return (declaration "api" "container" ["api"]) |}.

(** Two modules that declare the same service. *)
Definition clash : FileSystem :=
  {| walk := ["/project/a/garden.yml"; "/project/b/garden.yml"];
     ignores := λ _, false;
     loadModuleConfig := λ d,
       if String.eqb d "/project/a" then Return (declaration "a" "container" ["db"])
       else Return (declaration "b" "generic" ["cache"; "db"]) |}.

(** The context the constructor builds for the project. *)
Definition start : Machine :=
  match fresh imports "/project" with
  | Return s => s
  | Throw _ => {| this := blank "/project"; scanCount := 0 |}
  end.


End Fixture.

(** ** Vocabulary of the properties *)

(** The handler [registerPlugin] stores for a plugin that carries the
    action. *)
Definition boundHandler (plugin : PluginInterface) (action : ActionName)
  : option (BoundHandler action) :=
  fn ← pluginAction plugin action;
  Some {| bound_this := plugin; bound_fn := fn |}.

(** The plugins a list of factories yields when they are registered one after
    the other, each factory applied to the context it is registered in. *)
Fixpoint instances (X : Imports) (factories : list PluginFactory)
    (g : GardenContext) : list PluginInterface :=
  match factories with
  | [] => []
  | f :: rest => f g :: instances X rest (registerPlugin X f g).2
  end.

(** The plugins added by the [registerPlugin] calls of a history that
    returned, in call order. *)
Fixpoint registrations (X : Imports) (calls : list Call) (s : Machine)
  : list PluginInterface :=
  match calls with
  | [] => []
  | c :: rest =>
      match c with
      | RegisterPlugin f =>
          if succeeds X s c then f (this s) :: registrations X rest (step X s c)
          else registrations X rest (step X s c)
      | _ => registrations X rest (step X s c)
      end
  end.

(** Registration order of a context built for [root] and then taken through
    [calls]: the built-ins in their fixed order, then the external plugins. *)
Definition registrationOrder (X : Imports) (root : string) (calls : list Call)
    (s0 : Machine) : list PluginInterface :=
  (instances X (builtinPlugins X) (blank root) ++ registrations X calls s0)%list.

Definition supports (moduleType : string) (p : PluginInterface) : bool :=
  includes moduleType (supportedModuleTypes p).

(** The module-type restriction read word for word: applied whenever a
    module type is supplied. *)
Definition restrictSupplied (moduleType : option string)
    (ps : list PluginInterface) : list PluginInterface :=
  match moduleType with
  | Some t => List.filter (supports t) ps
  | None => ps
  end.

(** The module-type restriction applied only for a non-empty module type. *)
Definition restrictNonEmpty (moduleType : option string)
    (ps : list PluginInterface) : list PluginInterface :=
  match moduleType with
  | Some t => if String.eqb t "" then ps else List.filter (supports t) ps
  | None => ps
  end.

(** The first plugin of a list that implements an action. *)
Definition firstImplementing (type : ActionName) (ps : list PluginInterface)
  : option PluginInterface :=
  List.find (λ p, implements p type) ps.

(** What global resolution is to return for the plugins [ps] it scans. *)
Definition resolvesAmong (ps : list PluginInterface)
    (type : ActionName) (moduleType : option string) (g : GardenContext) : Prop :=
  match firstImplementing type ps with
  | Some p => getActionHandler type moduleType g = Return (boundHandler p type)
              /\ is_Some (boundHandler p type)
  | None => exists msg,
      getActionHandler type moduleType g
      = Throw (ParameterError msg (HandlerDetail type moduleType))
  end.

(** The registry is consistent: every plugin is stored under its own, valid
    name, no name is that of an inherited member, names are not repeated,
    and [actionHandlers] holds for each action and name the handler bound to
    the plugin of that name, if it carries the action. *)
Record registry_ok (X : Imports) (g : GardenContext) : Prop := {
  names_ok : forall k p, In (k, p) (plugins g) ->
             plugin_name p = k /\ JoiIdentifier X k = true;
  own_ok : forall k p, In (k, p) (plugins g) -> inherited k = false;
  keys_ok : List.NoDup (JsObject.keys (plugins g));
  handlers_ok : forall a n,
    handlersOf a (actionHandlers g) !! n
    = JsObject.get n (plugins g) ≫= λ p, boundHandler p a;
}.

(** Some [setEnvironment] call of a history returned. *)
Fixpoint setSucceeded (X : Imports) (calls : list Call) (s : Machine) : Prop :=
  match calls with
  | [] => False
  | c :: rest =>
      (exists selector, c = SetEnvironment selector /\ succeeds X s c = true)
      \/ setSucceeded X rest (step X s c)
  end.



(** The provider types configured for an environment: the types found
    under the provider slots of its block. *)
Definition providerTypes (block : EnvironmentConfig) (t : string) : Prop :=
  exists slot provider,
    providers block !! slot = Some provider /\ provider_type provider = t.

(** Membership in the provider types as [getEnvPlugins] computes it. *)
Definition inProviderTypes (block : EnvironmentConfig) (t : string) : bool :=
  includes t (map provider_type (map snd (map_to_list (providers block)))).


Definition enabledIn (config : Found EnvironmentConfig) (t : string) : bool :=
  match config with
  | Own block => inProviderTypes block t
  | Inherited _ => false
  end.




(** A declaration found by a discovery pass over [fs]: some scanned item is
    a module declaration file and the loader returns [cfg] for its
    directory. *)
Definition declaredBy (X : Imports) (fs : FileSystem) (root : string)
    (cfg : ModuleConfig) : Prop :=
  exists item,
    In item (scannedItems X fs root)
    /\ base (parse X item) = MODULE_CONFIG_FILENAME X
    /\ loadModuleConfig fs (dir (parse X item)) = Return cfg.

(** The cached indexes belong together: both are set or neither is, and
    every indexed service points at a module that the module index holds
    under the name of the declaration that lists the service. *)
Definition indexes_ok (X : Imports) (g : GardenContext) : Prop :=
  (is_Some (services g) <-> is_Some (modules g))
  /\ forall ss, services g = Some ss ->
     exists ms fs,
       modules g = Some ms
       /\ forall sn svc, ss !! sn = Some svc ->
          exists cfg,
            declaredBy X fs (projectRoot g) cfg
            /\ In sn (JsObject.keys (default [] (cfg_services cfg)))
            /\ ms !! cfg_name cfg = Some (svc_module svc).

(** The memoisation claim read word for word: at most one scan per
    context. *)
Definition scansAtMostOnce (X : Imports) (root : string) : Prop :=
  forall s0 calls, fresh X root = Return s0 -> scanCount (run X calls s0) <= 1.


(** Whether a scanned item is a module declaration file:
    [parsedPath.base === MODULE_CONFIG_FILENAME]. *)
Definition isDeclaration (X : Imports) (item : string) : bool :=
  String.eqb (base (parse X item)) (MODULE_CONFIG_FILENAME X).

(** No call of a history registers a plugin. *)
Definition registersNothing (calls : list Call) : Prop :=
  forall f, ~ In (RegisterPlugin f) calls.

(** * Properties *)

(** ** Strings *)

Lemma split_dot_nonempty (s : string) : split_dot s <> [].
Proof.
  destruct s as [|c rest]; simpl; [discriminate|].
  destruct (Ascii.eqb c "."); [discriminate|].
  destruct (split_dot rest); discriminate.
Qed.

Lemma join_dot_cons (seg : string) (more : list string) :
  join_dot (seg :: more) =
  match more with [] => seg | _ => seg ++ "." ++ join_dot more end.
Proof. destruct more; reflexivity. Qed.

(** Joining the segments of a split gives the string back. *)
Lemma join_split_dot (s : string) : join_dot (split_dot s) = s.
Proof.
  induction s as [|c rest IH]; [reflexivity|].
  simpl split_dot. destruct (Ascii.eqb_spec c ".") as [->|Hc].
  - rewrite join_dot_cons. pose proof (split_dot_nonempty rest) as Hne.
    destruct (split_dot rest) eqn:E; [contradiction|].
    simpl. now rewrite <- IH.
  - pose proof (split_dot_nonempty rest) as Hne.
    destruct (split_dot rest) as [|seg segs] eqn:E; [contradiction|].
    rewrite join_dot_cons in *. destruct segs; simpl; now rewrite <- IH.
Qed.


Lemma includes_In (x : string) (xs : list string) :
  includes x xs = true <-> In x xs.
Proof.
  unfold includes. rewrite existsb_exists. split.
  - intros (y & Hy & Heq). apply String.eqb_eq in Heq. now subst.
  - intros H. exists x. split; [assumption|apply String.eqb_refl].
Qed.


(** ** Ordered objects *)

Section JsObjectFacts.
Context {V : Type}.
Implicit Types (o : JsObject.t V) (k : string) (v : V).

Lemma get_Some_In k v o : JsObject.get k o = Some v -> In (k, v) o.
Proof.
  induction o as [|[k' v'] rest IH]; simpl; [discriminate|].
  destruct (String.eqb_spec k k') as [->|Hne].
  - intros [= ->]. now left.
  - intros H. right. auto.
Qed.

Lemma get_None_keys k o : JsObject.get k o = None <-> ~ In k (JsObject.keys o).
Proof.
  induction o as [|[k' v'] rest IH]; simpl; [tauto|].
  destruct (String.eqb_spec k k') as [->|Hne].
  - split; [discriminate|]. intros H. exfalso. apply H. now left.
  - rewrite IH. split; [intros H [E|E]; [congruence|contradiction]|tauto].
Qed.

Lemma In_get k v o :
  List.NoDup (JsObject.keys o) -> In (k, v) o -> JsObject.get k o = Some v.
Proof.
  induction o as [|[k' v'] rest IH]; simpl; [contradiction|].
  intros Hnd [[= -> ->]|Hin].
  - now rewrite String.eqb_refl.
  - apply List.NoDup_cons_iff in Hnd as [Hk' Hnd].
    destruct (String.eqb_spec k k') as [->|Hne]; [|auto].
    exfalso. apply Hk'. unfold JsObject.keys.
    change k' with (fst (k', v)). now apply in_map.
Qed.

Lemma insertIndex_In i k v o (e : string * V) :
  In e (JsObject.insertIndex i k v o) <-> e = (k, v) \/ In e o.
Proof.
  induction o as [|[k' v'] rest IH]; simpl; [intuition congruence|].
  destruct (JsObject.arrayIndex k') as [j|]; [destruct (j <? i)%N|]; simpl;
    rewrite ?IH; intuition congruence.
Qed.

Lemma insertIndex_keys i k v o :
  List.NoDup (JsObject.keys o) -> ~ In k (JsObject.keys o) ->
  List.NoDup (JsObject.keys (JsObject.insertIndex i k v o)).
Proof.
  induction o as [|[k' v'] rest IH]; simpl; intros Hnd Hk.
  - constructor; [tauto|constructor].
  - assert (Hcons : List.NoDup (k :: k' :: JsObject.keys rest))
      by (constructor; [exact Hk|exact Hnd]).
    destruct (JsObject.arrayIndex k') as [j|]; [destruct (j <? i)%N|]; simpl;
      try exact Hcons.
    apply List.NoDup_cons_iff in Hnd as [Hk' Hnd].
    constructor.
    + unfold JsObject.keys. rewrite in_map_iff.
      intros ([k2 v2] & Hfst & Hin). simpl in Hfst. subst k2.
      apply insertIndex_In in Hin as [[= -> ->]|Hin]; [tauto|].
      apply Hk'. unfold JsObject.keys. change k' with (fst (k', v2)).
      now apply in_map.
    + apply IH; tauto.
Qed.

(** Writing under a new key adds exactly that entry. *)
Lemma set_fresh_In k v o (e : string * V) :
  JsObject.get k o = None ->
  (In e (JsObject.set k v o) <-> e = (k, v) \/ In e o).
Proof.
  intros Hget. unfold JsObject.set. rewrite Hget.
  destruct (JsObject.arrayIndex k).
  - apply insertIndex_In.
  - rewrite in_app_iff. simpl. intuition congruence.
Qed.

Lemma set_fresh_keys k v o :
  JsObject.get k o = None -> List.NoDup (JsObject.keys o) ->
  List.NoDup (JsObject.keys (JsObject.set k v o)).
Proof.
  intros Hget Hnd. unfold JsObject.set. rewrite Hget.
  apply get_None_keys in Hget.
  destruct (JsObject.arrayIndex k).
  - now apply insertIndex_keys.
  - unfold JsObject.keys. rewrite map_app. simpl.
    apply NoDup_ListNoDup, NoDup_app. split; [now apply NoDup_ListNoDup|]. split.
    + intros x Hx Hin. apply list_elem_of_In in Hin. simpl in Hin.
      destruct Hin as [<-|[]]. apply Hget. now apply list_elem_of_In.
    + constructor; [apply not_elem_of_nil|constructor].
Qed.

Lemma get_set_fresh k v o k' :
  JsObject.get k o = None -> List.NoDup (JsObject.keys o) ->
  JsObject.get k' (JsObject.set k v o) =
  if String.eqb k' k then Some v else JsObject.get k' o.
Proof.
  intros Hget Hnd.
  pose proof (set_fresh_keys k v o Hget Hnd) as Hnd'.
  destruct (String.eqb_spec k' k) as [->|Hne].
  - apply In_get; [exact Hnd'|]. apply set_fresh_In; auto.
  - destruct (JsObject.get k' o) as [w|] eqn:E.
    + apply In_get; [exact Hnd'|]. apply set_fresh_In; [exact Hget|].
      right. now apply get_Some_In.
    + destruct (JsObject.get k' (JsObject.set k v o)) as [w|] eqn:E'; [|reflexivity].
      apply get_Some_In in E'. apply set_fresh_In in E' as [[= ? ?]|Hin]; [congruence| |exact Hget].
      apply In_get in Hin; [congruence|exact Hnd].
Qed.

(** Array indices are enumerated first, in numeric order, whenever they were
    written. *)
Example index_keys_first :
  JsObject.keys
    (JsObject.set "2" 2 (JsObject.set "b" 1 (JsObject.set "10" 10
       (JsObject.set "a" 0 JsObject.empty))))
  = ["2"; "10"; "a"; "b"].
Proof. reflexivity. Qed.

(** A new key that is no array index goes last. *)
Lemma set_fresh_last k v o :
  JsObject.get k o = None -> JsObject.arrayIndex k = None ->
  JsObject.set k v o = (o ++ [(k, v)])%list.
Proof. intros Hget Hidx. unfold JsObject.set. now rewrite Hget, Hidx. Qed.

End JsObjectFacts.

(** ** Reads through the prototype chain *)

Lemma read_None {V : Type} (k : string) (o : JsObject.t V) :
  JsObject.read k o = None <-> JsObject.get k o = None /\ inherited k = false.
Proof.
  unfold JsObject.read. destruct (JsObject.get k o); [|destruct (inherited k)];
    split; try discriminate; try tauto; intros [? ?]; discriminate.
Qed.

Lemma readMap_None {V : Type} (k : string) (o : gmap string V) :
  readMap k o = None <-> o !! k = None /\ inherited k = false.
Proof.
  unfold readMap. destruct (o !! k); [|destruct (inherited k)];
    split; try discriminate; try tauto; intros [? ?]; discriminate.
Qed.

Lemma readMap_Own {V : Type} (k : string) (o : gmap string V) (v : V) :
  readMap k o = Some (Own v) <-> o !! k = Some v.
Proof.
  unfold readMap. destruct (o !! k); [|destruct (inherited k)];
    split; try discriminate; congruence.
Qed.


(** ** The registry *)

Section Registry.
Variable X : Imports.

(** After the loop over [pluginActionNames], the entries under the plugin's
    name are its bound handlers; the other names keep theirs. *)
Lemma handlersOf_bindActions (n : string) (p : PluginInterface)
    (h : PluginActionMap) (a : ActionName) (k : string) :
  handlersOf a (fold_left (bindAction n p) pluginActionNames h) !! k
  = if String.eqb k n
    then match boundHandler p a with
         | Some b => Some b
         | None => handlersOf a h !! n
         end
    else handlersOf a h !! k.
Proof.
  unfold pluginActionNames, bindAction, boundHandler. simpl fold_left.
  destruct (String.eqb_spec k n) as [->|Hne].
  - destruct a; simpl;
      destruct (plugin_parseModule p), (plugin_getModuleBuildStatus p),
        (plugin_buildModule p); simpl;
      rewrite ?lookup_insert_eq; reflexivity.
  - destruct a; simpl;
      destruct (plugin_parseModule p), (plugin_getModuleBuildStatus p),
        (plugin_buildModule p); simpl;
      rewrite ?lookup_insert_ne by congruence; reflexivity.
Qed.

Lemma registerPlugin_invalid (f : PluginFactory) (g : GardenContext) :
  JoiIdentifier X (plugin_name (f g)) = false ->
  registerPlugin X f g = (Throw (ValidationError (plugin_name (f g))), g).
Proof. intros H. unfold registerPlugin, Joi_attempt. now rewrite H. Qed.

Lemma registerPlugin_duplicate (f : PluginFactory) (g : GardenContext)
    (previous : PluginInterface) :
  JoiIdentifier X (plugin_name (f g)) = true ->
  JsObject.get (plugin_name (f g)) (plugins g) = Some previous ->
  registerPlugin X f g
  = (Throw (PluginError ("Plugin " ++ plugin_name (f g) ++ " declared more than once")
              (DeclaredTwiceDetail (Own previous) (f g))), g).
Proof.
  intros Hv Hg. unfold registerPlugin, Joi_attempt, JsObject.read.
  now rewrite Hv, Hg.
Qed.


Lemma registerPlugin_fresh (f : PluginFactory) (g : GardenContext) :
  JoiIdentifier X (plugin_name (f g)) = true ->
  JsObject.get (plugin_name (f g)) (plugins g) = None ->
  inherited (plugin_name (f g)) = false ->
  registerPlugin X f g
  = (Return (),
     withPlugin (JsObject.set (plugin_name (f g)) (f g) (plugins g))
       (fold_left (bindAction (plugin_name (f g)) (f g)) pluginActionNames
          (actionHandlers g)) g).
Proof.
  intros Hv Hg Hi. unfold registerPlugin, Joi_attempt, JsObject.read.
  now rewrite Hv, Hg, Hi.
Qed.

(** The three ways a registration can go: the name is refused by the schema,
    something is read under it, or it is new. *)
Lemma registerPlugin_cases (f : PluginFactory) (g : GardenContext) :
  (JoiIdentifier X (plugin_name (f g)) = false /\
   registerPlugin X f g = (Throw (ValidationError (plugin_name (f g))), g))
  \/ (exists previous,
       JoiIdentifier X (plugin_name (f g)) = true /\
       JsObject.read (plugin_name (f g)) (plugins g) = Some previous /\
       (registerPlugin X f g).2 = g /\ returned (registerPlugin X f g).1 = false)
  \/ (JoiIdentifier X (plugin_name (f g)) = true /\
      JsObject.get (plugin_name (f g)) (plugins g) = None /\
      inherited (plugin_name (f g)) = false /\
      registerPlugin X f g
      = (Return (),
         withPlugin (JsObject.set (plugin_name (f g)) (f g) (plugins g))
           (fold_left (bindAction (plugin_name (f g)) (f g)) pluginActionNames
              (actionHandlers g)) g)).
Proof.
  destruct (JoiIdentifier X (plugin_name (f g))) eqn:Hv.
  - destruct (JsObject.read (plugin_name (f g)) (plugins g)) as [previous|] eqn:Hr.
    + right; left. exists previous. unfold registerPlugin, Joi_attempt.
      rewrite Hv, Hr. auto.
    + right; right. apply read_None in Hr as [Hg Hi].
      auto using registerPlugin_fresh.
  - left. auto using registerPlugin_invalid.
Qed.

Lemma registry_ok_blank (root : string) : registry_ok X (blank root).
Proof.
  split; simpl.
  - contradiction.
  - contradiction.
  - constructor.
  - intros a n. destruct a; simpl; apply lookup_empty.
Qed.

Lemma registry_ok_register (f : PluginFactory) (g : GardenContext) :
  registry_ok X g -> registry_ok X (registerPlugin X f g).2.
Proof.
  intros [Hnames Hown Hkeys Hhandlers].
  destruct (registerPlugin_cases f g)
    as [[_ ->]|[(prev & _ & _ & -> & _)|(Hv & Hg & Hni & ->)]];
    [split; assumption..|].
  split; unfold withPlugin; cbn [snd plugins actionHandlers].
  - intros k p Hin. apply set_fresh_In in Hin as [[= -> ->]|Hin]; auto.
  - intros k p Hin. apply set_fresh_In in Hin as [[= -> ->]|Hin]; eauto.
  - now apply set_fresh_keys.
  - intros a n. rewrite handlersOf_bindActions, !Hhandlers.
    rewrite (get_set_fresh _ _ _ n Hg Hkeys).
    destruct (String.eqb_spec n (plugin_name (f g))) as [->|Hne]; [|reflexivity].
    rewrite Hg. simpl. now destruct (boundHandler (f g) a).
Qed.

End Registry.

(** ** Resolution over a consistent registry *)

Lemma boundHandler_implements (p : PluginInterface) (a : ActionName) :
  is_Some (boundHandler p a) <-> implements p a = true.
Proof.
  unfold boundHandler, implements.
  destruct (pluginAction p a); simpl; split; intros H;
    try reflexivity; try discriminate; eauto.
  now destruct H.
Qed.

Lemma values_In {V : Type} (o : JsObject.t V) (v : V) :
  In v (JsObject.values o) <-> exists k, In (k, v) o.
Proof.
  unfold JsObject.values. rewrite in_map_iff. split.
  - intros ([k w] & <- & Hin). now exists k.
  - intros (k & Hin). now exists (k, v).
Qed.

(** A registered plugin is found again under its own name. *)
Lemma registered_get (X : Imports) (g : GardenContext) (p : PluginInterface) :
  registry_ok X g -> In p (JsObject.values (plugins g)) ->
  JsObject.get (plugin_name p) (plugins g) = Some p.
Proof.
  intros Hok Hin. apply values_In in Hin as (k & Hin).
  destruct (names_ok X g Hok k p Hin) as [<- _].
  apply In_get; [exact (keys_ok X g Hok)|exact Hin].
Qed.

(** The scan returns the handler bound to the first plugin that carries the
    action. *)
Lemma firstHandler_registered (X : Imports) (g : GardenContext)
    (type : ActionName) (ps : list PluginInterface) :
  registry_ok X g ->
  (forall p, In p ps -> In p (JsObject.values (plugins g))) ->
  firstHandler type (actionHandlers g) ps
  = (λ p, boundHandler p type) <$> firstImplementing type ps.
Proof.
  intros Hok. induction ps as [|p rest IH]; intros Hsub; [reflexivity|].
  unfold firstImplementing in *. simpl.
  destruct (implements p type) eqn:Himpl; simpl.
  - rewrite (handlers_ok X g Hok), (registered_get X g p Hok) by (apply Hsub; now left).
    reflexivity.
  - apply IH. intros q Hq. apply Hsub. now right.
Qed.

Lemma getAllPlugins_registered (moduleType : option string) (g : GardenContext)
    (p : PluginInterface) :
  In p (getAllPlugins moduleType g) -> In p (JsObject.values (plugins g)).
Proof.
  unfold getAllPlugins. destruct (truthy moduleType); [|auto].
  intros H. now apply filter_In in H.
Qed.

Lemma getAllPlugins_restrict (moduleType : option string) (g : GardenContext) :
  getAllPlugins moduleType g
  = restrictNonEmpty moduleType (JsObject.values (plugins g)).
Proof.
  unfold getAllPlugins, restrictNonEmpty, truthy.
  destruct moduleType as [t|]; [|reflexivity].
  now destruct (String.eqb t "").
Qed.

Lemma find_Some_implements (type : ActionName) (ps : list PluginInterface)
    (p : PluginInterface) :
  firstImplementing type ps = Some p -> In p ps /\ implements p type = true.
Proof. intros H. now apply find_some in H. Qed.

(** Global resolution over a consistent registry, in terms of the list it
    scans. *)
Lemma getActionHandler_registered (X : Imports) (g : GardenContext)
    (type : ActionName) (moduleType : option string) :
  registry_ok X g ->
  resolvesAmong (getAllPlugins moduleType g) type moduleType g.
Proof.
  intros Hok. unfold resolvesAmong, getActionHandler.
  rewrite (firstHandler_registered X g type _ Hok)
    by apply getAllPlugins_registered.
  destruct (firstImplementing type (getAllPlugins moduleType g)) as [p|] eqn:E; simpl.
  - split; [reflexivity|]. apply boundHandler_implements.
    now apply find_Some_implements in E.
  - eauto.
Qed.

(** ** What the calls leave unchanged *)

Section Frames.
Variable X : Imports.

Lemma registerPlugin_state (f : PluginFactory) (g : GardenContext) :
  (registerPlugin X f g).2 = g
  \/ exists ps h, (registerPlugin X f g).2 = withPlugin ps h g.
Proof.
  destruct (registerPlugin_cases X f g)
    as [[_ ->]|[(prev & _ & _ & -> & _)|(_ & _ & _ & ->)]];
    eauto.
Qed.

Lemma setEnvironment_state (selector : string) (g : GardenContext) :
  (setEnvironment X selector g).2 = g
  \/ exists name ns, (setEnvironment X selector g).2 = withEnvironment name ns g.
Proof.
  unfold setEnvironment. destruct (config g) as [c|]; [|now left].
  destruct (readMap _ (environments c)); simpl; eauto.
Qed.

Lemma getModules_state (fs : FileSystem) (names : option (list string)) (s : Machine) :
  this (getModules X fs names s).2 = this s
  \/ exists ms ss, modules (this s) = None
       /\ indexItems X fs (this s) (scannedItems X fs (projectRoot (this s))) (∅, ∅)
          = Return (ms, ss)
       /\ this (getModules X fs names s).2 = withIndexes ms ss (this s).
Proof.
  unfold getModules. destruct (modules (this s)) eqn:Hm; [now left|].
  destruct (indexItems _ _ _ _ _) as [[ms ss]|e] eqn:E; simpl.
  - right. exists ms, ss. auto.
  - now left.
Qed.

Lemma getServices_state (fs : FileSystem) (names : option (list string)) (s : Machine) :
  (getServices X fs names s).2 = (getModules X fs None s).2.
Proof. unfold getServices. now destruct (getModules X fs None s) as [[?|?] ?]. Qed.

(** How a call changes the context. *)
Lemma step_state (s : Machine) (c : Call) :
  this (step X s c) = this s
  \/ (exists f ps h, c = RegisterPlugin f /\ this (step X s c) = withPlugin ps h (this s)
        /\ (registerPlugin X f (this s)).2 = withPlugin ps h (this s))
  \/ (exists selector name ns, c = SetEnvironment selector
        /\ this (step X s c) = withEnvironment name ns (this s))
  \/ (exists ms ss, (forall selector, c <> SetEnvironment selector)
        /\ this (step X s c) = withIndexes ms ss (this s)).
Proof.
  destruct c; simpl; auto.
  - destruct (setEnvironment_state selector (this s)) as [->|(n & ns & ->)]; eauto 8.
  - destruct (registerPlugin_state pluginFactory (this s)) as [E|(ps & h & E)];
      rewrite E; eauto 8.
  - destruct (getModules_state fs names s) as [->|(ms & ss & _ & _ & ->)]; [auto|].
    right; right; right. exists ms, ss. split; [discriminate|reflexivity].
  - rewrite getServices_state.
    destruct (getModules_state fs None s) as [->|(ms & ss & _ & _ & ->)]; [auto|].
    right; right; right. exists ms, ss. split; [discriminate|reflexivity].
Qed.


Lemma registry_ok_step (s : Machine) (c : Call) :
  registry_ok X (this s) -> registry_ok X (this (step X s c)).
Proof.
  intros Hok.
  destruct (step_state s c)
    as [->|[(f & ps & h & _ & -> & E)|[(sel & n & ns & _ & ->)|(ms & ss & _ & ->)]]];
    try assumption.
  - rewrite <- E. now apply registry_ok_register.
  - destruct Hok; split; assumption.
  - destruct Hok; split; assumption.
Qed.

(** A property of machines that every call preserves holds after any
    sequence of calls. *)
Lemma run_invariant (P : Machine -> Prop) :
  (forall s c, P s -> P (step X s c)) ->
  forall calls s, P s -> P (run X calls s).
Proof.
  intros Hstep calls. unfold run.
  induction calls as [|c rest IH]; intros s Hs; simpl; auto.
Qed.

Lemma run_app (calls more : list Call) (s : Machine) :
  run X (calls ++ more) s = run X more (run X calls s).
Proof. unfold run. apply fold_left_app. Qed.

Lemma registerAll_ok (factories : list PluginFactory) (g : GardenContext) :
  registry_ok X g -> registry_ok X (registerAll X factories g).2.
Proof.
  revert g. induction factories as [|f rest IH]; intros g Hok; simpl; [assumption|].
  pose proof (registry_ok_register X f g Hok) as Hok'.
  destruct (registerPlugin X f g) as [[[]|e] g']; simpl in *; auto.
Qed.

Lemma registerAll_frame (factories : list PluginFactory) (g : GardenContext) :
  let g' := (registerAll X factories g).2 in
  projectRoot g' = projectRoot g /\ config g' = config g
  /\ environment g' = environment g /\ namespace g' = namespace g
  /\ modules g' = modules g /\ services g' = services g.
Proof.
  revert g. induction factories as [|f rest IH]; intros g; simpl; [tauto|].
  destruct (registerPlugin_state f g) as [E|(ps & h & E)];
    destruct (registerPlugin X f g) as [[[]|e] g']; simpl in *; subst g';
    try tauto; [apply IH|].
  destruct (IH (withPlugin ps h g)) as (? & ? & ? & ? & ? & ?). tauto.
Qed.

(** What the constructor establishes. *)
Lemma constructor_ok (root : string) (g : GardenContext) :
  constructor X root = Return g ->
  registry_ok X g /\ projectRoot g = root
  /\ (exists c, loadProjectConfig X root = Return c /\ config g = Some c)
  /\ environment g = None /\ namespace g = None
  /\ modules g = None /\ services g = None
  /\ plugins g = plugins (registerAll X (builtinPlugins X) (blank root)).2
  /\ returned (registerAll X (builtinPlugins X) (blank root)).1 = true.
Proof.
  unfold constructor.
  pose proof (registerAll_ok (builtinPlugins X) (blank root) (registry_ok_blank X root)) as Hok.
  pose proof (registerAll_frame (builtinPlugins X) (blank root)) as Hfr.
  destruct (registerAll X (builtinPlugins X) (blank root)) as [[[]|e] g']; [|discriminate].
  simpl in *. destruct (loadProjectConfig X root) as [c|e] eqn:Hc; [|discriminate].
  simpl. intros [= <-]. destruct Hfr as (? & ? & ? & ? & ? & ?).
  split; [destruct Hok; split; assumption|].
  repeat split; simpl; try assumption. eauto.
Qed.

End Frames.

(** ** Registration order *)

Section Order.
Variable X : Imports.

(** The identifier grammar admits no array index: every valid plugin name is
    enumerated in insertion order. *)
Hypothesis identifiers_are_not_indices :
  forall k, JoiIdentifier X k = true -> JsObject.arrayIndex k = None.

Lemma values_register (f : PluginFactory) (g : GardenContext) :
  JsObject.values (plugins (registerPlugin X f g).2)
  = (JsObject.values (plugins g)
     ++ if returned (registerPlugin X f g).1 then [f g] else [])%list.
Proof.
  destruct (registerPlugin_cases X f g)
    as [[_ ->]|[(prev & _ & _ & -> & ->)|(Hv & Hg & Hni & ->)]]; simpl;
    rewrite ?app_nil_r; try reflexivity.
  rewrite set_fresh_last by auto.
  unfold JsObject.values. now rewrite map_app.
Qed.

Lemma values_registerAll (factories : list PluginFactory) (g : GardenContext) :
  returned (registerAll X factories g).1 = true ->
  JsObject.values (plugins (registerAll X factories g).2)
  = (JsObject.values (plugins g) ++ instances X factories g)%list.
Proof.
  revert g. induction factories as [|f rest IH]; intros g; simpl.
  - now rewrite app_nil_r.
  - pose proof (values_register f g) as Hv.
    destruct (registerPlugin X f g) as [[[]|e] g'] eqn:E; simpl in *; [|discriminate].
    intros Hret. rewrite (IH g' Hret), Hv, <- app_assoc. reflexivity.
Qed.

Lemma step_plugins (s : Machine) (c : Call) :
  (forall f, c <> RegisterPlugin f) ->
  plugins (this (step X s c)) = plugins (this s).
Proof.
  intros Hc.
  destruct (step_state X s c)
    as [->|[(f & ps & h & E & _)|[(sel & n & ns & _ & ->)|(ms & ss & _ & ->)]]];
    try reflexivity.
  now destruct (Hc f).
Qed.

Lemma values_run (calls : list Call) (s : Machine) :
  JsObject.values (plugins (this (run X calls s)))
  = (JsObject.values (plugins (this s)) ++ registrations X calls s)%list.
Proof.
  revert s. induction calls as [|c rest IH]; intros s.
  - simpl. now rewrite app_nil_r.
  - change (run X (c :: rest) s) with (run X rest (step X s c)).
    rewrite IH.
    destruct c as [sel| |f|fs names|fs names|type mt|type mt];
      cbn [registrations]; try (rewrite step_plugins by discriminate; reflexivity).
    cbn [step succeeds this]. rewrite (values_register f (this s)).
    destruct (returned (registerPlugin X f (this s)).1);
      rewrite <- app_assoc; reflexivity.
Qed.

Lemma fresh_inv (root : string) (s0 : Machine) :
  fresh X root = Return s0 ->
  exists g, constructor X root = Return g /\ s0 = {| this := g; scanCount := 0 |}.
Proof.
  unfold fresh. destruct (constructor X root) as [g|e]; simpl; [|discriminate].
  intros [= <-]. eauto.
Qed.

(** The plugins of a context, in enumeration order, are the registered ones
    in registration order. *)
Lemma values_registrationOrder (root : string) (s0 : Machine) (calls : list Call) :
  fresh X root = Return s0 ->
  JsObject.values (plugins (this (run X calls s0)))
  = registrationOrder X root calls s0.
Proof.
  intros Hfresh. apply fresh_inv in Hfresh as (g & Hg & ->).
  apply constructor_ok in Hg as (_ & _ & _ & _ & _ & _ & _ & Hps & Hret).
  rewrite values_run. cbn [this]. rewrite Hps.
  rewrite (values_registerAll _ _ Hret). reflexivity.
Qed.

End Order.

Lemma registry_ok_reachable (X : Imports) (root : string) (s0 : Machine)
    (calls : list Call) :
  fresh X root = Return s0 -> registry_ok X (this (run X calls s0)).
Proof.
  intros Hfresh. apply fresh_inv in Hfresh as (g & Hg & ->).
  apply (run_invariant X (λ s, registry_ok X (this s))).
  - intros s c. apply registry_ok_step.
  - now apply constructor_ok in Hg as (Hok & _).
Qed.

(** ** Registered plugins *)

Section Members.
Variable X : Imports.

Lemma members_register (f : PluginFactory) (g : GardenContext) (p : PluginInterface) :
  In p (JsObject.values (plugins (registerPlugin X f g).2))
  <-> In p (JsObject.values (plugins g))
      \/ (returned (registerPlugin X f g).1 = true /\ p = f g).
Proof.
  destruct (registerPlugin_cases X f g)
    as [[_ ->]|[(prev & _ & _ & -> & ->)|(Hv & Hg & Hni & ->)]];
    cbn [fst snd returned].
  - split; [auto|]. intros [H|[H _]]; [exact H|discriminate H].
  - split; [auto|]. intros [H|[H _]]; [exact H|discriminate H].
  - cbn [plugins withPlugin]. rewrite !values_In. split.
    + intros (k & Hin).
      apply set_fresh_In in Hin as [[= _ ->]|Hin]; [auto|eauto|exact Hg].
    + intros [(k & Hin)|[_ ->]]; [exists k|exists (plugin_name (f g))];
        apply set_fresh_In; auto.
Qed.

Lemma members_registerAll (factories : list PluginFactory) (g : GardenContext)
    (p : PluginInterface) :
  returned (registerAll X factories g).1 = true ->
  (In p (JsObject.values (plugins (registerAll X factories g).2))
   <-> In p (JsObject.values (plugins g)) \/ In p (instances X factories g)).
Proof.
  revert g. induction factories as [|f rest IH]; intros g; simpl; [tauto|].
  pose proof (members_register f g p) as Hm.
  destruct (registerPlugin X f g) as [[[]|e] g'] eqn:E; simpl in *; [|discriminate].
  intros Hret. rewrite (IH g' Hret), Hm. intuition (subst; auto).
Qed.

Lemma members_run (calls : list Call) (s : Machine) (p : PluginInterface) :
  In p (JsObject.values (plugins (this (run X calls s))))
  <-> In p (JsObject.values (plugins (this s))) \/ In p (registrations X calls s).
Proof.
  revert s. induction calls as [|c rest IH]; intros s; [simpl; tauto|].
  change (run X (c :: rest) s) with (run X rest (step X s c)).
  rewrite IH.
  destruct c as [sel| |f|fs names|fs names|type mt|type mt];
    cbn [registrations]; try (rewrite step_plugins by discriminate; reflexivity).
  cbn [step succeeds this]. rewrite (members_register f (this s) p).
  destruct (returned (registerPlugin X f (this s)).1); cbn [In];
    intuition (subst; auto; discriminate).
Qed.

(** The plugins of a context are the registered ones. *)
Lemma members_registrationOrder (root : string) (s0 : Machine) (calls : list Call)
    (p : PluginInterface) :
  fresh X root = Return s0 ->
  In p (JsObject.values (plugins (this (run X calls s0))))
  <-> In p (registrationOrder X root calls s0).
Proof.
  intros Hfresh. apply fresh_inv in Hfresh as (g & Hg & ->).
  apply constructor_ok in Hg as (_ & _ & _ & _ & _ & _ & _ & Hps & Hret).
  rewrite members_run. cbn [this]. rewrite Hps.
  rewrite (members_registerAll _ _ p Hret). unfold registrationOrder.
  rewrite in_app_iff. simpl. tauto.
Qed.

End Members.

(** ** The fixture *)

Lemma lower_not_digit (c : ascii) :
  Fixture.lower c = true -> JsObject.digit c = None.
Proof.
  destruct c as [[] [] [] [] [] [] [] []]; vm_compute; intros H;
    first [reflexivity|discriminate H].
Qed.

(** The identifiers of the fixture start with a letter, so none is an array
    index. *)
Lemma identifier_not_index (k : string) :
  JoiIdentifier Fixture.imports k = true -> JsObject.arrayIndex k = None.
Proof.
  simpl. destruct k as [|c rest]; [reflexivity|].
  unfold Fixture.identifier. intros H. apply andb_true_iff in H as [Hc _].
  unfold JsObject.arrayIndex.
  destruct (Ascii.eqb c "0" && negb (String.eqb rest "")); [reflexivity|].
  cbn [JsObject.digits]. now rewrite (lower_not_digit c Hc).
Qed.

Lemma fresh_fixture : fresh Fixture.imports "/project" = Return Fixture.start.
Proof. vm_compute. reflexivity. Qed.

(** ** Global resolution *)

(** C1, as amended.  For a context built by the constructor and taken through
    any calls, [getActionHandler type moduleType] returns the handler bound to
    the first plugin, in registration order (the built-ins in their fixed
    order, then the external plugins in the order of their registration),
    that implements [type]; the scanned list is restricted to the plugins
    whose supported module types contain [moduleType] when a non-empty
    [moduleType] is given, and is the whole list otherwise.  When no scanned
    plugin implements [type] the call throws a ParameterError.  The identifier
    grammar is assumed to admit no array index. *)
Theorem global_resolution_in_registration_order
    (X : Imports) (root : string) (s0 : Machine) (calls : list Call)
    (type : ActionName) (moduleType : option string) :
  (forall k, JoiIdentifier X k = true -> JsObject.arrayIndex k = None) ->
  fresh X root = Return s0 ->
  resolvesAmong
    (restrictNonEmpty moduleType (registrationOrder X root calls s0))
    type moduleType (this (run X calls s0)).
Proof.
  intros Hidx Hfresh.
  rewrite <- (values_registrationOrder X Hidx root s0 calls Hfresh).
  rewrite <- getAllPlugins_restrict.
  apply (getActionHandler_registered X).
  now apply (registry_ok_reachable X root).
Qed.

Lemma global_resolution_in_registration_order_witness :
  resolvesAmong
    (restrictNonEmpty (Some "container")
       (registrationOrder Fixture.imports "/project"
          [RegisterPlugin (λ _, Fixture.kube)] Fixture.start))
    buildModule (Some "container")
    (this (run Fixture.imports [RegisterPlugin (λ _, Fixture.kube)] Fixture.start)).
Proof.
  apply (global_resolution_in_registration_order Fixture.imports "/project").
  - exact identifier_not_index.
  - exact fresh_fixture.
Defined.

(** C1 as stated fails for the empty module type: it is supplied, no plugin
    of the fixture supports it, and yet the call returns the handler of the
    first built-in instead of throwing. *)
Lemma global_resolution_empty_module_type :
  getActionHandler parseModule (Some "") (this Fixture.start)
  = Return (boundHandler Fixture.generic parseModule)
  /\ supports "" Fixture.generic = false
  /\ ~ resolvesAmong
        (restrictSupplied (Some "")
           (registrationOrder Fixture.imports "/project" [] Fixture.start))
        parseModule (Some "") (this Fixture.start).
Proof.
  split; [vm_compute; reflexivity|]. split; [reflexivity|].
  intros H. vm_compute in H. destruct H as [msg H]. discriminate H.
Qed.

(** C7.  When no plugin of the list that global resolution scans (the
    registered plugins after the optional module-type restriction) implements
    the requested capability, [getActionHandler] throws a ParameterError
    whose detail carries the requested capability and the requested module
    type. *)
Theorem getActionHandler_no_handler
    (type : ActionName) (moduleType : option string) (g : GardenContext) :
  (forall p, In p (getAllPlugins moduleType g) -> implements p type = false) ->
  exists msg,
    getActionHandler type moduleType g
    = Throw (ParameterError msg (HandlerDetail type moduleType)).
Proof.
  intros Hnone. unfold getActionHandler.
  assert (Hscan : forall ps, (forall p, In p ps -> implements p type = false) ->
                  firstHandler type (actionHandlers g) ps = None).
  { induction ps as [|p rest IH]; intros Hps; [reflexivity|]. simpl.
    rewrite (Hps p) by now left. simpl. apply IH. intros q Hq. apply Hps. now right. }
  rewrite (Hscan _ Hnone). eauto.
Qed.

Lemma getActionHandler_no_handler_witness :
  exists msg,
    getActionHandler buildModule (Some "function") (this Fixture.start)
    = Throw (ParameterError msg (HandlerDetail buildModule (Some "function"))).
Proof.
  apply getActionHandler_no_handler.
  intros p Hp. vm_compute in Hp. destruct Hp as [<-|[]]. reflexivity.
Defined.

(** ** The capability-handler mapping *)

(** C9.  In a context built by the constructor and taken through any sequence
    of calls, whose registered plugins are the built-ins and the plugins of
    the [registerPlugin] calls that returned: for every capability name and
    every plugin name the capability-handler mapping has an entry under that
    name exactly when a registered plugin has that name and implements the
    capability; the entry under the name of a registered plugin is the
    handler bound to that plugin, absent when the plugin does not implement
    the capability; and every entry is bound to the registered plugin stored
    under its name. *)
Theorem actionHandlers_iff_implements
    (X : Imports) (root : string) (s0 : Machine) (calls : list Call)
    (action : ActionName) (n : string) :
  fresh X root = Return s0 ->
  let g := this (run X calls s0) in
  let registered := registrationOrder X root calls s0 in
  (is_Some (handlersOf action (actionHandlers g) !! n)
   <-> exists p, In p registered /\ plugin_name p = n /\ implements p action = true)
  /\ (forall p, In p registered ->
      handlersOf action (actionHandlers g) !! plugin_name p = boundHandler p action)
  /\ (forall b, handlersOf action (actionHandlers g) !! n = Some b ->
      In (bound_this b) registered
      /\ plugin_name (bound_this b) = n
      /\ JsObject.get n (plugins g) = Some (bound_this b)
      /\ pluginAction (bound_this b) action = Some (bound_fn b)).
Proof.
  intros Hfresh g registered.
  pose proof (registry_ok_reachable X root s0 calls Hfresh) as Hok. fold g in Hok.
  assert (Hmem : forall p, In p registered
                           <-> JsObject.get (plugin_name p) (plugins g) = Some p).
  { intros p. unfold registered.
    rewrite <- (members_registrationOrder X root s0 calls p Hfresh). fold g. split.
    - apply (registered_get X g p Hok).
    - intros Hget. apply values_In. exists (plugin_name p). now apply get_Some_In. }
  assert (Hname : forall k p, JsObject.get k (plugins g) = Some p -> plugin_name p = k).
  { intros k p Hget. apply get_Some_In in Hget.
    now destruct (names_ok X g Hok k p Hget). }
  split; [|split].
  - rewrite (handlers_ok X g Hok). split.
    + destruct (JsObject.get n (plugins g)) as [p|] eqn:Hget; simpl;
        [|intros [? ?]; discriminate].
      intros Hb. exists p. pose proof (Hname n p Hget) as Hn.
      split; [apply Hmem; now rewrite Hn|]. split; [exact Hn|].
      now apply boundHandler_implements.
    + intros (p & Hin & <- & Himpl). apply Hmem in Hin. rewrite Hin. simpl.
      now apply boundHandler_implements.
  - intros p Hin. apply Hmem in Hin. now rewrite (handlers_ok X g Hok), Hin.
  - intros b. rewrite (handlers_ok X g Hok).
    destruct (JsObject.get n (plugins g)) as [p|] eqn:Hget; simpl; [|discriminate].
    unfold boundHandler. destruct (pluginAction p action) as [fn|] eqn:Hfn;
      [|discriminate].
    simpl. intros [= <-]. simpl. pose proof (Hname n p Hget) as Hn.
    split; [apply Hmem; now rewrite Hn|]. auto.
Qed.

Lemma actionHandlers_iff_implements_witness :
  let calls := [RegisterPlugin (λ _, Fixture.kube)] in
  let g := this (run Fixture.imports calls Fixture.start) in
  let registered := registrationOrder Fixture.imports "/project" calls Fixture.start in
  ((is_Some (handlersOf buildModule (actionHandlers g) !! "kube")
    <-> exists p, In p registered /\ plugin_name p = "kube"
                  /\ implements p buildModule = true)
   /\ (forall p, In p registered ->
       handlersOf buildModule (actionHandlers g) !! plugin_name p
       = boundHandler p buildModule)
   /\ (forall b, handlersOf buildModule (actionHandlers g) !! "kube" = Some b ->
       In (bound_this b) registered
       /\ plugin_name (bound_this b) = "kube"
       /\ JsObject.get "kube" (plugins g) = Some (bound_this b)
       /\ pluginAction (bound_this b) buildModule = Some (bound_fn b)))
  /\ In Fixture.kube registered
  /\ is_Some (handlersOf buildModule (actionHandlers g) !! "kube")
  /\ handlersOf parseModule (actionHandlers g) !! "kube" = None.
Proof.
  split.
  - apply (actionHandlers_iff_implements Fixture.imports "/project").
    exact fresh_fixture.
  - vm_compute. split; [tauto|]. split; [eauto|reflexivity].
Defined.

(** ** The active environment *)





Example setEnvironment_namespaced :
  (setEnvironment Fixture.imports "prod.teamA" (this Fixture.start)).1
  = Return ("prod", "teamA").
Proof. reflexivity. Qed.

Example setEnvironment_default_namespace :
  (setEnvironment Fixture.imports "prod" (this Fixture.start)).1
  = Return ("prod", DEFAULT_NAMESPACE Fixture.imports).
Proof. reflexivity. Qed.

Example setEnvironment_unknown :
  (setEnvironment Fixture.imports "bogus" (this Fixture.start)).1
  = Throw (ParameterError "Could not find environment bogus"
             (EnvironmentDetail "bogus" "default")).
Proof. reflexivity. Qed.

Section ActiveEnvironment.
Variable X : Imports.
Variable c : ProjectConfig.







End ActiveEnvironment.




Example getEnvironment_before_set :
  getEnvironment (this Fixture.start)
  = Throw (PluginError "Environment has not been set" NoDetail).
Proof. reflexivity. Qed.

(** ** Environment-scoped resolution *)

Lemma inProviderTypes_spec (block : EnvironmentConfig) (t : string) :
  inProviderTypes block t = true <-> providerTypes block t.
Proof.
  unfold inProviderTypes, providerTypes. rewrite includes_In, in_map_iff. split.
  - intros (provider & Htype & Hin). apply in_map_iff in Hin as ([slot q] & Hq & Hin).
    simpl in Hq. subst q. apply list_elem_of_In, elem_of_map_to_list in Hin. eauto.
  - intros (slot & provider & Hslot & Htype). exists provider. split; [exact Htype|].
    apply in_map_iff. exists (slot, provider). split; [reflexivity|].
    now apply list_elem_of_In, elem_of_map_to_list.
Qed.






(** Environment-scoped resolution over a consistent registry. *)
Lemma getEnvActionHandler_registered (X : Imports) (g : GardenContext)
    (type : ActionName) (moduleType : option string)
    (env : Environment) (found : Found EnvironmentConfig) :
  registry_ok X g ->
  getEnvironment g = Return env -> env_config env = Some found ->
  let considered :=
    List.filter (λ p, enabledIn found (plugin_name p))
      (getAllPlugins moduleType g) in
  getEnvPlugins moduleType g = Return considered
  /\ match firstImplementing type considered with
     | Some p =>
         getEnvActionHandler type moduleType g = Return (boundHandler p type)
         /\ is_Some (boundHandler p type)
     | None =>
         exists msg,
           getEnvActionHandler type moduleType g
           = Throw (ParameterError msg
                      (EnvHandlerDetail type moduleType (env_name env)))
     end.
Proof.
  intros Hok Henv Hfound considered.
  assert (Hps : getEnvPlugins moduleType g = Return considered).
  { unfold getEnvPlugins. rewrite Henv. simpl. rewrite Hfound.
    now destruct found. }
  split; [exact Hps|].
  unfold getEnvActionHandler. rewrite Hps. simpl.
  rewrite (firstHandler_registered X g type considered Hok).
  - destruct (firstImplementing type considered) as [p|] eqn:E; simpl.
    + split; [reflexivity|]. apply boundHandler_implements.
      now apply find_Some_implements in E.
    + rewrite Henv. simpl. eauto.
  - intros p Hp. apply filter_In in Hp as [Hp _].
    now apply getAllPlugins_registered in Hp.
Qed.



(** The same request resolves to another plugin in another environment. *)
Example env_resolution_prod :
  getEnvActionHandler buildModule (Some "container")
    (this (run Fixture.imports
             [RegisterPlugin (λ _, Fixture.kube); SetEnvironment "prod"] Fixture.start))
  = Return (boundHandler Fixture.kube buildModule).
Proof. vm_compute. reflexivity. Qed.

Example env_resolution_dev :
  getEnvActionHandler buildModule (Some "container")
    (this (run Fixture.imports
             [RegisterPlugin (λ _, Fixture.kube); SetEnvironment "dev"] Fixture.start))
  = Return (boundHandler Fixture.container buildModule).
Proof. vm_compute. reflexivity. Qed.

(** Under an inherited name no provider type is configured, and nothing
    resolves. *)
Example env_resolution_inherited_name :
  getEnvActionHandler buildModule (Some "container")
    (this (run Fixture.imports [SetEnvironment "constructor"] Fixture.start))
  = Throw (ParameterError
             "No handler for buildModule configured for environment constructor and module type container"
             (EnvHandlerDetail buildModule (Some "container") "constructor")).
Proof. vm_compute. reflexivity. Qed.

(** ** Registration *)






Example registerPlugin_twice :
  exists msg,
    (registerPlugin Fixture.imports (λ _, Fixture.container) (this Fixture.start)).1
    = Throw (PluginError msg
               (DeclaredTwiceDetail (Own Fixture.container) Fixture.container)).
Proof. eexists. reflexivity. Qed.

(** ** Memoised discovery *)

Section Memo.
Variable X : Imports.

Lemma getModules_cached (fs : FileSystem) (names : option (list string))
    (s : Machine) (index : gmap string GardenModule) :
  modules (this s) = Some index ->
  getModules X fs names s = (Return (allOrPick index names), s).
Proof. intros H. unfold getModules. now rewrite H. Qed.

(** Once the module index is set, no call touches it, the service index or
    the scan counter. *)
Lemma step_cached (s : Machine) (call : Call) (index : gmap string GardenModule) :
  modules (this s) = Some index ->
  modules (this (step X s call)) = Some index
  /\ services (this (step X s call)) = services (this s)
  /\ scanCount (step X s call) = scanCount s.
Proof.
  intros H. destruct call as [sel| |f|fs names|fs names|type mt|type mt];
    cbn [step this scanCount]; auto.
  - destruct (setEnvironment_state X sel (this s)) as [->|(n & ns & ->)]; auto.
  - destruct (registerPlugin_state X f (this s)) as [->|(ps & h & ->)]; auto.
  - rewrite (getModules_cached fs names s index H). auto.
  - rewrite getServices_state, (getModules_cached fs None s index H). auto.
Qed.

Lemma run_cached (calls : list Call) (s : Machine) (index : gmap string GardenModule) :
  modules (this s) = Some index ->
  modules (this (run X calls s)) = Some index
  /\ services (this (run X calls s)) = services (this s)
  /\ scanCount (run X calls s) = scanCount s.
Proof.
  revert s. induction calls as [|call rest IH]; intros s H; [auto|].
  change (run X (call :: rest) s) with (run X rest (step X s call)).
  destruct (step_cached s call index H) as (Hm & Hs & Hc).
  destruct (IH _ Hm) as (Hm' & Hs' & Hc'). split; [exact Hm'|]. split; congruence.
Qed.

(** A pass that fails caches nothing and has counted its scan. *)
Lemma getModules_throws (fs : FileSystem) (names : option (list string))
    (s : Machine) (e : Exception) :
  modules (this s) = None ->
  indexItems X fs (this s) (scannedItems X fs (projectRoot (this s))) (∅, ∅) = Throw e ->
  getModules X fs names s
  = (Throw e, {| this := this s; scanCount := S (scanCount s) |}).
Proof. intros Hm He. unfold getModules. now rewrite Hm, He. Qed.

End Memo.

(** C8, as amended.  [getModules] is memoised from its first successful
    call on: that call scans at most once and leaves the module index
    cached; after it, whatever calls follow, no call scans again (the scan
    counter stays where it was) or changes the module or service index, and
    every later [getModules] call returns the cached module index, or its
    restriction to the requested names, whatever the project tree then
    holds. *)
Theorem getModules_memoized
    (X : Imports) (fs : FileSystem) (names : option (list string)) (s : Machine)
    (result : Selection GardenModule) :
  (getModules X fs names s).1 = Return result ->
  let s1 := (getModules X fs names s).2 in
  exists index,
    modules (this s1) = Some index
    /\ result = allOrPick index names
    /\ scanCount s1 <= S (scanCount s)
    /\ forall calls fs' names',
         let s2 := run X calls s1 in
         getModules X fs' names' s2 = (Return (allOrPick index names'), s2)
         /\ scanCount s2 = scanCount s1
         /\ modules (this s2) = Some index
         /\ services (this s2) = services (this s1).
Proof.
  intros Hret s1.
  assert (Hindex : exists index, modules (this s1) = Some index
                                 /\ result = allOrPick index names
                                 /\ scanCount s1 <= S (scanCount s)).
  { subst s1. unfold getModules in *.
    destruct (modules (this s)) as [ms|] eqn:Hm.
    - simpl in *. injection Hret as <-. exists ms. auto.
    - destruct (indexItems _ _ _ _ _) as [[ms ss]|e]; simpl in *; [|discriminate].
      injection Hret as <-. exists ms. auto. }
  destruct Hindex as (index & Hm & Hres & Hcount).
  exists index. split; [exact Hm|]. split; [exact Hres|]. split; [exact Hcount|].
  intros calls fs' names' s2.
  destruct (run_cached X calls s1 index Hm) as (Hm2 & Hs2 & Hc2).
  split; [now apply getModules_cached|]. auto.
Qed.

Lemma getModules_memoized_witness :
  let s1 := (getModules Fixture.imports Fixture.tree None Fixture.start).2 in
  exists index,
    modules (this s1) = Some index
    /\ allOrPick (default ∅ (modules (this s1))) None = allOrPick index None
    /\ scanCount s1 <= S (scanCount Fixture.start)
    /\ forall calls fs' names',
         let s2 := run Fixture.imports calls s1 in
         getModules Fixture.imports fs' names' s2 = (Return (allOrPick index names'), s2)
         /\ scanCount s2 = scanCount s1
         /\ modules (this s2) = Some index
         /\ services (this s2) = services (this s1).
Proof.
  apply (getModules_memoized Fixture.imports Fixture.tree None Fixture.start).
  vm_compute. reflexivity.
Defined.

(** C8 as stated fails when a pass fails: nothing is cached, and the next
    call scans again. *)
Lemma getModules_rescans_after_failure :
  returned (getModules Fixture.imports Fixture.twice None Fixture.start).1 = false
  /\ scanCount (run Fixture.imports
                  [GetModules Fixture.twice None; GetModules Fixture.twice None]
                  Fixture.start) = 2
  /\ ~ scansAtMostOnce Fixture.imports "/project".
Proof.
  split; [vm_compute; reflexivity|]. split; [vm_compute; reflexivity|].
  intros H.
  specialize (H Fixture.start
                [GetModules Fixture.twice None; GetModules Fixture.twice None]
                fresh_fixture).
  vm_compute in H. lia.
Qed.

(** ** The indexes of a discovery pass *)

Section Discovery.
Variable X : Imports.
Variable fs : FileSystem.
Variable g : GardenContext.

(** What one run of the service loop adds. *)
Lemma addServices_added (module : GardenModule) (moduleName : string)
    (entries : JsObject.t Any) (ss ss' : gmap string Service) :
  addServices module moduleName entries ss = Return ss' ->
  forall sn svc, ss' !! sn = Some svc ->
  ss !! sn = Some svc
  \/ (In sn (JsObject.keys entries) /\ svc_module svc = module).
Proof.
  revert ss. induction entries as [|[k v] rest IH]; intros ss; simpl.
  - intros [= <-]. auto.
  - destruct (readMap k ss) as [[owner|i]|] eqn:Hk; [discriminate..|].
    intros Hadd sn svc Hsn.
    destruct (IH _ Hadd sn svc Hsn) as [Hin|[Hin Hmod]]; [|tauto].
    rewrite lookup_insert in Hin. destruct (decide (k = sn)) as [->|Hne]; [|auto].
    injection Hin as <-. auto.
Qed.



(** Every indexed service points at a module indexed under the name of a
    declaration among [items] that lists the service. *)
Definition pass_ok (items : list string)
    (acc : gmap string GardenModule * gmap string Service) : Prop :=
  forall sn svc, acc.2 !! sn = Some svc ->
  exists cfg,
    (exists item, In item items
       /\ base (parse X item) = MODULE_CONFIG_FILENAME X
       /\ loadModuleConfig fs (dir (parse X item)) = Return cfg)
    /\ In sn (JsObject.keys (default [] (cfg_services cfg)))
    /\ acc.1 !! cfg_name cfg = Some (svc_module svc).

Lemma indexItem_ok (items : list string) (item : string)
    (acc acc' : gmap string GardenModule * gmap string Service) :
  In item items -> pass_ok items acc ->
  indexItem X fs g acc item = Return acc' -> pass_ok items acc'.
Proof.
  intros Hitem Hacc. unfold indexItem.
  destruct (String.eqb_spec (base (parse X item)) (MODULE_CONFIG_FILENAME X))
    as [Hbase|_]; [|now intros [= <-]].
  destruct (loadModuleConfig fs (dir (parse X item))) as [cfg|e] eqn:Hload;
    simpl; [|discriminate].
  destruct (readMap (cfg_name cfg) acc.1) as [previous|] eqn:Hprev; [discriminate|].
  apply readMap_None in Hprev as [Hprev _].
  destruct (getActionHandler parseModule (Some (cfg_type cfg)) g) as [handler|e];
    simpl; [|discriminate].
  destruct (callParse handler cfg) as [module|e]; simpl; [|discriminate].
  destruct (addServices module (cfg_name cfg) (default [] (cfg_services cfg)) acc.2)
    as [ss'|e] eqn:Hadd; simpl; [|discriminate].
  intros [= <-] sn svc Hsn. cbn [fst snd] in *.
  destruct (addServices_added _ _ _ _ _ Hadd sn svc Hsn) as [Hold|[Hnew Hmod]].
  - destruct (Hacc sn svc Hold) as (cfg0 & Hdecl & Hkeys & Hlookup).
    exists cfg0. split; [exact Hdecl|]. split; [exact Hkeys|].
    rewrite lookup_insert_ne; [exact Hlookup|]. intros Heq. congruence.
  - exists cfg. split; [eauto|]. split; [exact Hnew|].
    rewrite lookup_insert_eq. now rewrite Hmod.
Qed.

Lemma indexItems_ok (items rest : list string)
    (acc acc' : gmap string GardenModule * gmap string Service) :
  (forall item, In item rest -> In item items) -> pass_ok items acc ->
  indexItems X fs g rest acc = Return acc' -> pass_ok items acc'.
Proof.
  revert acc. induction rest as [|item rest IH]; intros acc Hsub Hacc; simpl.
  - now intros [= <-].
  - destruct (indexItem X fs g acc item) as [acc1|e] eqn:Hitem; simpl; [|discriminate].
    apply IH.
    + intros i Hi. apply Hsub. now right.
    + apply (indexItem_ok items item acc); auto. apply Hsub. now left.
Qed.

(** The pass over a list goes through its items one after the other. *)
Lemma indexItems_app (pre post : list string)
    (acc : gmap string GardenModule * gmap string Service) :
  indexItems X fs g (pre ++ post) acc
  = acc' ← indexItems X fs g pre acc; indexItems X fs g post acc'.
Proof.
  revert acc. induction pre as [|item pre IH]; intros acc; simpl; [reflexivity|].
  destruct (indexItem X fs g acc item) as [acc1|e]; simpl; [apply IH|reflexivity].
Qed.

End Discovery.

Lemma indexes_ok_fields (X : Imports) (g g' : GardenContext) :
  modules g' = modules g -> services g' = services g ->
  projectRoot g' = projectRoot g -> indexes_ok X g -> indexes_ok X g'.
Proof. unfold indexes_ok. intros -> -> ->. auto. Qed.

Lemma indexes_ok_pass (X : Imports) (fs : FileSystem) (g : GardenContext)
    (ms : gmap string GardenModule) (ss : gmap string Service) :
  indexItems X fs g (scannedItems X fs (projectRoot g)) (∅, ∅) = Return (ms, ss) ->
  indexes_ok X (withIndexes ms ss g).
Proof.
  intros Hpass. split; simpl; [split; eauto|].
  intros ss' [= <-]. exists ms, fs. split; [reflexivity|].
  intros sn svc Hsn.
  refine (indexItems_ok X fs g (scannedItems X fs (projectRoot g))
            (scannedItems X fs (projectRoot g)) (∅, ∅) (ms, ss) _ _ Hpass sn svc Hsn).
  - auto.
  - intros sn' svc' Hsn'. simpl in Hsn'. now rewrite lookup_empty in Hsn'.
Qed.

Lemma indexes_ok_step (X : Imports) (s : Machine) (call : Call) :
  indexes_ok X (this s) -> indexes_ok X (this (step X s call)).
Proof.
  intros H. destruct call as [sel| |f|fs names|fs names|type mt|type mt];
    cbn [step this]; try exact H.
  - destruct (setEnvironment_state X sel (this s)) as [->|(n & ns & ->)];
      [exact H|]. now apply (indexes_ok_fields X (this s)).
  - destruct (registerPlugin_state X f (this s)) as [->|(ps & h & ->)];
      [exact H|]. now apply (indexes_ok_fields X (this s)).
  - destruct (getModules_state X fs names s) as [->|(ms & ss & _ & Hpass & ->)];
      [exact H|]. now apply (indexes_ok_pass X fs).
  - rewrite getServices_state.
    destruct (getModules_state X fs None s) as [->|(ms & ss & _ & Hpass & ->)];
      [exact H|]. now apply (indexes_ok_pass X fs).
Qed.



Example discovery_indexes :
  let g := this (run Fixture.imports [GetServices Fixture.tree None] Fixture.start) in
  (mod_path <$> (modules g ≫= λ ms, ms !! "api")) = Some "/project/api"
  /\ (mod_name ∘ svc_module <$> (services g ≫= λ ss, ss !! "web")) = Some "web".
Proof. vm_compute. auto. Qed.

(** ** Duplicates *)




(** A module named like a member that every object inherits is refused as
    declared twice, although it is declared once. *)
Example inherited_module_name :
  let odd := {| walk := ["/project/api/garden.yml"];
                ignores := λ _, false;
                loadModuleConfig := λ _,
                  Return (Fixture.declaration "constructor" "container" []) |} in
  (getModules Fixture.imports odd None Fixture.start).1
  = Throw (ConfigurationError
             "Module constructor is declared multiple times ('undefined' and 'api/garden.yml')"
             (ModulePathsDetail None "api/garden.yml")).
Proof. vm_compute. reflexivity. Qed.

Example getModules_subset :
  (getModules Fixture.imports Fixture.tree (Some ["api"; "db"]) Fixture.start).1
  = Return (pick (default ∅ (modules (this (getModules Fixture.imports Fixture.tree
                                              None Fixture.start).2)))
              ["api"; "db"]).
Proof. vm_compute. reflexivity. Qed.

Example duplicate_service_names :
  (getModules Fixture.imports Fixture.clash None Fixture.start).1
  = Throw (ConfigurationError
             "Service names must be unique - db is declared multiple times (in 'a' and 'b')"
             (ServiceModulesDetail "db" "a" "b")).
Proof. vm_compute. reflexivity. Qed.

(** * Further properties of the context *)

(** ** What a resolution returns *)

Lemma boundHandler_Some (p : PluginInterface) (a : ActionName) (h : BoundHandler a) :
  boundHandler p a = Some h ->
  bound_this h = p /\ pluginAction p a = Some (bound_fn h).
Proof.
  unfold boundHandler. destruct (pluginAction p a) as [fn|]; [|discriminate].
  simpl. intros [= <-]. auto.
Qed.

Lemma getAllPlugins_supports (moduleType : option string) (g : GardenContext)
    (p : PluginInterface) (t : string) :
  In p (getAllPlugins moduleType g) -> truthy moduleType = Some t ->
  supports t p = true.
Proof.
  unfold getAllPlugins. intros Hin Ht. rewrite Ht in Hin.
  now apply filter_In in Hin.
Qed.

(** X1.  On a context built by the constructor and taken through any calls,
    global resolution never returns [undefined]: a call that returns gives a
    handler, the handler is bound to a plugin registered under its own name,
    its function is the one that plugin carries for the action, and the
    plugin supports the requested module type when that is not empty. *)
Theorem getActionHandler_returns_registered_handler
    (X : Imports) (root : string) (s0 : Machine) (calls : list Call)
    (type : ActionName) (moduleType : option string) :
  fresh X root = Return s0 ->
  let g := this (run X calls s0) in
  getActionHandler type moduleType g <> Return None
  /\ forall h, getActionHandler type moduleType g = Return (Some h) ->
     JsObject.get (plugin_name (bound_this h)) (plugins g) = Some (bound_this h)
     /\ pluginAction (bound_this h) type = Some (bound_fn h)
     /\ forall t, truthy moduleType = Some t -> supports t (bound_this h) = true.
Proof.
  intros Hfresh g.
  pose proof (registry_ok_reachable X root s0 calls Hfresh) as Hok. fold g in Hok.
  pose proof (getActionHandler_registered X g type moduleType Hok) as Hres.
  unfold resolvesAmong in Hres.
  destruct (firstImplementing type (getAllPlugins moduleType g)) as [p|] eqn:E.
  - destruct Hres as [Hret [b Hb]]. rewrite Hret, Hb.
    apply find_Some_implements in E as [Hin _]. split; [discriminate|].
    intros h [= <-]. apply boundHandler_Some in Hb as [-> Hfn].
    split; [|split; [exact Hfn|]].
    + apply (registered_get X g p Hok). now apply getAllPlugins_registered in Hin.
    + intros t Ht. now apply (getAllPlugins_supports moduleType g).
  - destruct Hres as [msg ->]. split; [discriminate|]. intros h H. discriminate H.
Qed.

Lemma getActionHandler_returns_registered_handler_witness :
  let g := this (run Fixture.imports [RegisterPlugin (λ _, Fixture.kube)]
                   Fixture.start) in
  getActionHandler buildModule (Some "container") g <> Return None
  /\ forall h, getActionHandler buildModule (Some "container") g = Return (Some h) ->
     JsObject.get (plugin_name (bound_this h)) (plugins g) = Some (bound_this h)
     /\ pluginAction (bound_this h) buildModule = Some (bound_fn h)
     /\ forall t, truthy (Some "container") = Some t ->
                  supports t (bound_this h) = true.
Proof.
  apply (getActionHandler_returns_registered_handler Fixture.imports "/project").
  exact fresh_fixture.
Defined.

(** X2.  With an active environment, on a context built by the constructor
    and taken through any calls, environment-scoped resolution never returns
    [undefined] either, and the handler it returns is bound to a registered
    plugin that carries the action and supports the requested module type
    when that is not empty. *)
Theorem getEnvActionHandler_returns_registered_handler
    (X : Imports) (root : string) (s0 : Machine) (calls : list Call)
    (type : ActionName) (moduleType : option string) :
  fresh X root = Return s0 ->
  let g := this (run X calls s0) in
  getEnvActionHandler type moduleType g <> Return None
  /\ forall h, getEnvActionHandler type moduleType g = Return (Some h) ->
     JsObject.get (plugin_name (bound_this h)) (plugins g) = Some (bound_this h)
     /\ pluginAction (bound_this h) type = Some (bound_fn h)
     /\ forall t, truthy moduleType = Some t -> supports t (bound_this h) = true.
Proof.
  intros Hfresh g.
  pose proof (registry_ok_reachable X root s0 calls Hfresh) as Hok. fold g in Hok.
  destruct (getEnvironment g) as [env|e] eqn:Henv.
  2:{ unfold getEnvActionHandler, getEnvPlugins. rewrite Henv. simpl.
      split; [discriminate|]. intros h H. discriminate H. }
  destruct (env_config env) as [found|] eqn:Hfound.
  2:{ unfold getEnvActionHandler, getEnvPlugins. rewrite Henv. simpl.
      rewrite Hfound. simpl. split; [discriminate|]. intros h H. discriminate H. }
  destruct (getEnvActionHandler_registered X g type moduleType env found Hok Henv Hfound)
    as [_ Hres].
  destruct (firstImplementing type _) as [p|] eqn:E.
  - destruct Hres as [Hret [b Hb]]. rewrite Hret, Hb.
    apply find_Some_implements in E as [Hin _]. apply filter_In in Hin as [Hin _].
    split; [discriminate|].
    intros h [= <-]. apply boundHandler_Some in Hb as [-> Hfn].
    split; [|split; [exact Hfn|]].
    + apply (registered_get X g p Hok). now apply getAllPlugins_registered in Hin.
    + intros t Ht. now apply (getAllPlugins_supports moduleType g).
  - destruct Hres as [msg ->]. split; [discriminate|]. intros h H. discriminate H.
Qed.

Lemma getEnvActionHandler_returns_registered_handler_witness :
  let g := this (run Fixture.imports
                   [RegisterPlugin (λ _, Fixture.kube); SetEnvironment "prod"]
                   Fixture.start) in
  getEnvActionHandler buildModule (Some "container") g <> Return None
  /\ forall h, getEnvActionHandler buildModule (Some "container") g = Return (Some h) ->
     JsObject.get (plugin_name (bound_this h)) (plugins g) = Some (bound_this h)
     /\ pluginAction (bound_this h) buildModule = Some (bound_fn h)
     /\ forall t, truthy (Some "container") = Some t ->
                  supports t (bound_this h) = true.
Proof.
  apply (getEnvActionHandler_returns_registered_handler Fixture.imports "/project").
  exact fresh_fixture.
Defined.

(** ** Resolution before an environment is set *)

Lemma environment_unset_run (X : Imports) (calls : list Call) (s : Machine) :
  environment (this s) = None -> ~ setSucceeded X calls s ->
  environment (this (run X calls s)) = None.
Proof.
  revert s. induction calls as [|call rest IH]; intros s Henv Hno; [exact Henv|].
  change (run X (call :: rest) s) with (run X rest (step X s call)).
  simpl in Hno. apply IH; [|tauto].
  destruct call as [sel| |f|fs names|fs names|type mt|type mt]; try exact Henv.
  - simpl. unfold setEnvironment.
    destruct (config (this s)) as [c|] eqn:Hc; [|exact Henv].
    destruct (readMap (hd "" (split_dot sel)) (environments c)) eqn:E; [|exact Henv].
    exfalso. apply Hno. left. exists sel. split; [reflexivity|].
    simpl. unfold setEnvironment. now rewrite Hc, E.
  - destruct (step_state X s (RegisterPlugin f))
      as [->|[(f' & ps & h & _ & -> & _)|[(sel & n & ns & Hc & _)|(ms & ss & _ & ->)]]];
      try discriminate Hc; exact Henv.
  - destruct (step_state X s (GetModules fs names))
      as [->|[(f' & ps & h & Hc & _)|[(sel & n & ns & Hc & _)|(ms & ss & _ & ->)]]];
      try discriminate Hc; exact Henv.
  - destruct (step_state X s (GetServices fs names))
      as [->|[(f' & ps & h & Hc & _)|[(sel & n & ns & Hc & _)|(ms & ss & _ & ->)]]];
      try discriminate Hc; exact Henv.
Qed.

(** X3.  As long as no [setEnvironment] call has returned on a context built
    by the constructor, [getEnvPlugins] and [getEnvActionHandler] throw the
    PluginError of [getEnvironment], whatever plugins are registered and
    whatever is asked for. *)
Theorem env_resolution_requires_environment
    (X : Imports) (root : string) (s0 : Machine) (calls : list Call)
    (type : ActionName) (moduleType : option string) :
  fresh X root = Return s0 ->
  ~ setSucceeded X calls s0 ->
  let g := this (run X calls s0) in
  getEnvPlugins moduleType g
  = Throw (PluginError "Environment has not been set" NoDetail)
  /\ getEnvActionHandler type moduleType g
     = Throw (PluginError "Environment has not been set" NoDetail).
Proof.
  intros Hfresh Hno g.
  assert (Henv : environment g = None).
  { apply environment_unset_run; [|exact Hno].
    apply fresh_inv in Hfresh as (g0 & Hg0 & ->).
    now apply constructor_ok in Hg0 as (_ & _ & _ & Henv & _). }
  assert (Hps : getEnvPlugins moduleType g
                = Throw (PluginError "Environment has not been set" NoDetail)).
  { unfold getEnvPlugins, getEnvironment. now rewrite Henv. }
  split; [exact Hps|]. unfold getEnvActionHandler. now rewrite Hps.
Qed.

Lemma env_resolution_requires_environment_witness :
  let g := this (run Fixture.imports
                   [RegisterPlugin (λ _, Fixture.kube); SetEnvironment "bogus"]
                   Fixture.start) in
  getEnvPlugins (Some "container") g
  = Throw (PluginError "Environment has not been set" NoDetail)
  /\ getEnvActionHandler buildModule (Some "container") g
     = Throw (PluginError "Environment has not been set" NoDetail).
Proof.
  apply (env_resolution_requires_environment Fixture.imports "/project").
  - exact fresh_fixture.
  - vm_compute. intros [(sel & H & _)|[(sel & _ & H)|[]]]; discriminate H.
Defined.

(** ** The registry only grows *)

Lemma plugins_persist_step (X : Imports) (s : Machine) (call : Call)
    (n : string) (p : PluginInterface) :
  registry_ok X (this s) ->
  JsObject.get n (plugins (this s)) = Some p ->
  JsObject.get n (plugins (this (step X s call))) = Some p.
Proof.
  intros Hok Hget.
  destruct call as [sel| |f|fs names|fs names|type mt|type mt];
    try (rewrite step_plugins by discriminate; exact Hget).
  cbn [step this].
  destruct (registerPlugin_cases X f (this s))
    as [[_ ->]|[(prev & _ & _ & -> & _)|(Hv & Hnew & Hni & ->)]]; try exact Hget.
  cbn [snd plugins withPlugin].
  rewrite (get_set_fresh _ _ _ n Hnew (keys_ok X _ Hok)).
  destruct (String.eqb_spec n (plugin_name (f (this s)))) as [->|_]; [congruence|exact Hget].
Qed.

(** X4.  A plugin stays registered: once a plugin is stored under a name,
    no later call removes or replaces it, its bound handlers stay in the
    capability-handler mapping, and every later registration of a plugin of
    that name throws a PluginError naming the stored plugin and leaves the
    context as it is. *)
Theorem registered_plugin_persists
    (X : Imports) (root : string) (s0 : Machine) (pre calls : list Call)
    (n : string) (p : PluginInterface) :
  fresh X root = Return s0 ->
  JsObject.get n (plugins (this (run X pre s0))) = Some p ->
  let g := this (run X (pre ++ calls) s0) in
  JsObject.get n (plugins g) = Some p
  /\ (forall a, handlersOf a (actionHandlers g) !! n = boundHandler p a)
  /\ forall f, plugin_name (f g) = n ->
     exists msg,
       registerPlugin X f g
       = (Throw (PluginError msg (DeclaredTwiceDetail (Own p) (f g))), g).
Proof.
  intros Hfresh Hget g.
  assert (Hinv : registry_ok X g /\ JsObject.get n (plugins g) = Some p).
  { subst g. rewrite run_app.
    apply (run_invariant X
             (λ s, registry_ok X (this s) /\ JsObject.get n (plugins (this s)) = Some p)).
    - intros s call [Hok Hn]. split; [now apply registry_ok_step|].
      now apply plugins_persist_step.
    - split; [now apply (registry_ok_reachable X root)|exact Hget]. }
  destruct Hinv as [Hok Hn]. split; [exact Hn|]. split.
  - intros a. now rewrite (handlers_ok X g Hok), Hn.
  - intros f Hname.
    assert (Hvalid : JoiIdentifier X n = true).
    { apply get_Some_In in Hn. now destruct (names_ok X g Hok n p Hn). }
    rewrite <- Hname in Hvalid, Hn.
    rewrite (registerPlugin_duplicate X f g p Hvalid Hn). eauto.
Qed.

Lemma registered_plugin_persists_witness :
  let g := this (run Fixture.imports
                   ([RegisterPlugin (λ _, Fixture.kube)]
                    ++ [SetEnvironment "prod"; GetModules Fixture.tree None])
                   Fixture.start) in
  JsObject.get "kube" (plugins g) = Some Fixture.kube
  /\ (forall a, handlersOf a (actionHandlers g) !! "kube" = boundHandler Fixture.kube a)
  /\ forall f, plugin_name (f g) = "kube" ->
     exists msg,
       registerPlugin Fixture.imports f g
       = (Throw (PluginError msg (DeclaredTwiceDetail (Own Fixture.kube) (f g))), g).
Proof.
  apply (registered_plugin_persists Fixture.imports "/project").
  - exact fresh_fixture.
  - reflexivity.
Defined.

Lemma names_of_values (X : Imports) (o : JsObject.t PluginInterface) :
  (forall k p, In (k, p) o -> plugin_name p = k /\ JoiIdentifier X k = true) ->
  map plugin_name (JsObject.values o) = JsObject.keys o.
Proof.
  induction o as [|[k p] rest IH]; intros H; [reflexivity|]. simpl.
  destruct (H k p) as [-> _]; [now left|]. f_equal.
  apply IH. intros k' p' Hin. apply H. now right.
Qed.

(** X5.  On a context built by the constructor and taken through any calls,
    the registered plugins have pairwise distinct names, every name
    satisfies the identifier grammar, and each plugin is the one stored
    under its name. *)
Theorem plugin_names_valid_and_distinct
    (X : Imports) (root : string) (s0 : Machine) (calls : list Call) :
  fresh X root = Return s0 ->
  let g := this (run X calls s0) in
  List.NoDup (map plugin_name (getAllPlugins None g))
  /\ forall p, In p (getAllPlugins None g) ->
     JoiIdentifier X (plugin_name p) = true
     /\ JsObject.get (plugin_name p) (plugins g) = Some p.
Proof.
  intros Hfresh g.
  pose proof (registry_ok_reachable X root s0 calls Hfresh) as Hok. fold g in Hok.
  change (getAllPlugins None g) with (JsObject.values (plugins g)). split.
  - rewrite (names_of_values X _ (names_ok X g Hok)). exact (keys_ok X g Hok).
  - intros p Hin. split; [|now apply (registered_get X)].
    apply values_In in Hin as (k & Hin).
    now destruct (names_ok X g Hok k p Hin) as [-> ?].
Qed.

Lemma plugin_names_valid_and_distinct_witness :
  let g := this (run Fixture.imports
                   [RegisterPlugin (λ _, Fixture.kube);
                    RegisterPlugin (λ _, Fixture.container)] Fixture.start) in
  List.NoDup (map plugin_name (getAllPlugins None g))
  /\ forall p, In p (getAllPlugins None g) ->
     JoiIdentifier Fixture.imports (plugin_name p) = true
     /\ JsObject.get (plugin_name p) (plugins g) = Some p.
Proof.
  apply (plugin_names_valid_and_distinct Fixture.imports "/project").
  exact fresh_fixture.
Defined.

(** ** The constructor *)

Section Construction.
Variable X : Imports.

(** Registering a list of factories returns exactly when the plugins they
    yield have valid names that are new, that no object inherits and that
    are pairwise distinct; then the registry holds these plugins besides the
    ones it had. *)
Lemma registerAll_returns_iff (factories : list PluginFactory) (g : GardenContext) :
  registry_ok X g ->
  (returned (registerAll X factories g).1 = true
   <-> (forall p, In p (instances X factories g) ->
          JoiIdentifier X (plugin_name p) = true
          /\ inherited (plugin_name p) = false
          /\ JsObject.get (plugin_name p) (plugins g) = None)
       /\ List.NoDup (map plugin_name (instances X factories g)))
  /\ (returned (registerAll X factories g).1 = true ->
      forall p, In p (JsObject.values (plugins (registerAll X factories g).2))
        <-> In p (JsObject.values (plugins g)) \/ In p (instances X factories g)).
Proof.
  revert g. induction factories as [|f rest IH]; intros g Hok.
  { simpl. split; [|tauto]. split; [|reflexivity].
    intros _. split; [contradiction|constructor]. }
  cbn [registerAll instances].
  pose proof (registry_ok_register X f g Hok) as Hok'.
  destruct (registerPlugin_cases X f g)
    as [[Hbad E]|[(prev & Hv & Hprev & E1 & E2)|(Hv & Hnew & Hni & E)]].
  - rewrite E. cbn [fst snd returned]. split; [|discriminate]. split; [discriminate|].
    intros [Hall _]. destruct (Hall (f g)) as [Hvalid _]; [now left|]. congruence.
  - destruct (registerPlugin X f g) as [[[]|e] g'] eqn:E; [discriminate E2|].
    cbn [fst snd returned]. split; [|discriminate]. split; [discriminate|].
    intros [Hall _]. destruct (Hall (f g)) as (_ & Hown & Hnone); [now left|].
    assert (Hread : JsObject.read (plugin_name (f g)) (plugins g) = None)
      by (apply read_None; auto).
    congruence.
  - rewrite E in *. cbn [fst snd] in *.
    set (g' := withPlugin _ _ g) in *.
    assert (Hget : forall k, JsObject.get k (plugins g')
                    = if String.eqb k (plugin_name (f g)) then Some (f g)
                      else JsObject.get k (plugins g)).
    { intros k. apply get_set_fresh; [exact Hnew|exact (keys_ok X g Hok)]. }
    destruct (IH g' Hok') as [Hiff Hmem]. split.
    + rewrite Hiff. split.
      * intros [Hall Hnd]. split.
        -- intros p [<-|Hin]; [auto|].
           destruct (Hall p Hin) as (Hvalid & Hown & Hnone).
           split; [exact Hvalid|]. split; [exact Hown|]. rewrite Hget in Hnone.
           now destruct (String.eqb (plugin_name p) (plugin_name (f g))).
        -- cbn [map]. constructor; [|exact Hnd].
           intros Hin. apply in_map_iff in Hin as (p & Hname & Hin).
           destruct (Hall p Hin) as (_ & _ & Hnone). rewrite Hget, Hname in Hnone.
           now rewrite String.eqb_refl in Hnone.
      * intros [Hall Hnd]. cbn [map] in Hnd.
        apply List.NoDup_cons_iff in Hnd as [Hhead Hnd]. split; [|exact Hnd].
        intros p Hin. destruct (Hall p) as (Hvalid & Hown & Hnone); [now right|].
        split; [exact Hvalid|]. split; [exact Hown|]. rewrite Hget.
        destruct (String.eqb_spec (plugin_name p) (plugin_name (f g))) as [Heq|_];
          [|exact Hnone].
        exfalso. apply Hhead. rewrite <- Heq. now apply in_map.
    + intros Hret p. rewrite (Hmem Hret p). subst g'. cbn [plugins withPlugin].
      rewrite !values_In. cbn [In]. split.
      * intros [(k & Hin)|Hin]; [|tauto].
        apply set_fresh_In in Hin as [[= _ ->]|Hin]; [tauto|eauto|exact Hnew].
      * intros [(k & Hin)|[<-|Hin]]; [left|left|tauto].
        -- exists k. apply set_fresh_In; auto.
        -- exists (plugin_name (f g)). apply set_fresh_In; auto.
Qed.

End Construction.

(** X6.  When the constructor returns, the four built-in plugins have names
    that satisfy the identifier grammar, that no object inherits and that
    differ from one another, and the project configuration has loaded; the
    context it returns holds the loaded configuration, exactly the built-in
    plugins, no active environment and no cached index.  (The other objects
    the constructor creates, and the built-in classes, are taken to be
    constructed without error.) *)
Theorem constructor_establishes (X : Imports) (root : string) (g : GardenContext) :
  constructor X root = Return g ->
  let builtins := instances X (builtinPlugins X) (blank root) in
  (forall p, In p builtins ->
     JoiIdentifier X (plugin_name p) = true /\ inherited (plugin_name p) = false)
  /\ List.NoDup (map plugin_name builtins)
  /\ (exists c, loadProjectConfig X root = Return c /\ config g = Some c)
  /\ (forall p, In p (getAllPlugins None g) <-> In p builtins)
  /\ environment g = None /\ namespace g = None
  /\ modules g = None /\ services g = None /\ projectRoot g = root.
Proof.
  intros Hg builtins.
  destruct (registerAll_returns_iff X (builtinPlugins X) (blank root)
              (registry_ok_blank X root)) as [Hiff Hmem].
  fold builtins in Hiff, Hmem.
  pose proof (constructor_ok X root g Hg)
    as (_ & Hroot & Hc & Henv & Hns & Hm & Hs & Hps & Hret).
  destruct (proj1 Hiff Hret) as [Hall Hnd].
  split; [intros p Hin; destruct (Hall p Hin) as (? & ? & _); auto|].
  split; [exact Hnd|]. split; [exact Hc|]. split; [|tauto].
  intros p. change (getAllPlugins None g) with (JsObject.values (plugins g)).
  rewrite Hps, (Hmem Hret p). simpl. tauto.
Qed.

Lemma constructor_establishes_witness :
  let builtins := instances Fixture.imports (builtinPlugins Fixture.imports)
                    (blank "/project") in
  let g := this Fixture.start in
  (forall p, In p builtins ->
     JoiIdentifier Fixture.imports (plugin_name p) = true
     /\ inherited (plugin_name p) = false)
  /\ List.NoDup (map plugin_name builtins)
  /\ (exists c, loadProjectConfig Fixture.imports "/project" = Return c
                /\ config g = Some c)
  /\ (forall p, In p (getAllPlugins None g) <-> In p builtins)
  /\ environment g = None /\ namespace g = None
  /\ modules g = None /\ services g = None /\ projectRoot g = "/project".
Proof.
  apply (constructor_establishes Fixture.imports "/project" (this Fixture.start)).
  vm_compute. reflexivity.
Defined.

(** A built-in named like a member that every object inherits keeps the
    constructor from returning. *)
Example constructor_inherited_builtin :
  returned
    (constructor
       {| DEFAULT_NAMESPACE := "default";
          MODULE_CONFIG_FILENAME := "garden.yml";
          JoiIdentifier := Fixture.identifier;
          GenericModuleHandler := λ _, Fixture.inheritedName;
          ContainerModuleHandler := λ _, Fixture.container;
          GenericFunctionModuleHandler := λ _, Fixture.function;
          NpmPackageModuleHandler := λ _, Fixture.npm;
          loadProjectConfig := λ _, Return Fixture.project;
          parse := parse Fixture.imports;
          relative := Fixture.relativeTo |} "/project") = false.
Proof. vm_compute. reflexivity. Qed.

Example constructor_fixture :
  returned (constructor Fixture.imports "/project") = true
  /\ map plugin_name
       (instances Fixture.imports (builtinPlugins Fixture.imports) (blank "/project"))
     = ["generic"; "container"; "function"; "npm-package"].
Proof. split; reflexivity. Qed.

(** ** Selectors *)

Lemma has_char_cons (c d : ascii) (s : string) :
  has_char c (String d s) = false -> Ascii.eqb d c = false /\ has_char c s = false.
Proof.
  cbn [has_char]. intros H. apply orb_false_iff in H as [Hd Hs]. split; [|exact Hs].
  destruct (Ascii.eqb_spec d c) as [->|_]; [|reflexivity].
  now rewrite Ascii.eqb_refl in Hd.
Qed.

(** A string without dot is its own single segment. *)
Lemma split_dot_plain (name : string) :
  has_char "." name = false -> split_dot name = [name].
Proof.
  induction name as [|c rest IH]; [reflexivity|]. intros H.
  apply has_char_cons in H as [Hc Hrest]. cbn [split_dot].
  now rewrite Hc, (IH Hrest).
Qed.

(** The first dot ends the first segment. *)
Lemma split_dot_first (name rest : string) :
  has_char "." name = false ->
  split_dot (name ++ "." ++ rest) = name :: split_dot rest.
Proof.
  induction name as [|c more IH]; [reflexivity|]. intros H.
  apply has_char_cons in H as [Hc Hmore].
  change (String c more ++ "." ++ rest) with (String c (more ++ "." ++ rest)).
  cbn [split_dot]. now rewrite Hc, (IH Hmore).
Qed.

(** X7.  For a configured environment name without dot, the selector [name]
    and the selector [name.] select it with the default namespace, and the
    selector [name.ns] with a non-empty [ns] selects it with exactly the
    namespace [ns], dots of [ns] included. *)
Theorem setEnvironment_selector_round_trip
    (X : Imports) (name ns : string) (g : GardenContext) (c : ProjectConfig) :
  config g = Some c ->
  has_char "." name = false ->
  is_Some (environments c !! name) ->
  (setEnvironment X name g).1 = Return (name, DEFAULT_NAMESPACE X)
  /\ (setEnvironment X (name ++ ".") g).1 = Return (name, DEFAULT_NAMESPACE X)
  /\ (ns <> "" -> (setEnvironment X (name ++ "." ++ ns) g).1 = Return (name, ns)).
Proof.
  intros Hc Hname [block Hblock]. apply readMap_Own in Hblock.
  assert (Hsel : forall rest,
            (setEnvironment X (name ++ "." ++ rest) g).1
            = Return (name, or_else rest (DEFAULT_NAMESPACE X))).
  { intros rest. unfold setEnvironment.
    rewrite (split_dot_first name rest Hname). cbn [hd tl].
    now rewrite join_split_dot, Hc, Hblock. }
  split; [|split].
  - unfold setEnvironment. rewrite (split_dot_plain name Hname). cbn [hd tl join_dot].
    now rewrite Hc, Hblock.
  - exact (Hsel "").
  - intros Hns. rewrite Hsel. unfold or_else.
    now destruct (String.eqb_spec ns "").
Qed.

Lemma setEnvironment_selector_round_trip_witness :
  (setEnvironment Fixture.imports "prod" (this Fixture.start)).1
  = Return ("prod", "default")
  /\ (setEnvironment Fixture.imports "prod." (this Fixture.start)).1
     = Return ("prod", "default")
  /\ ("team.a..b" <> "" ->
      (setEnvironment Fixture.imports "prod.team.a..b" (this Fixture.start)).1
      = Return ("prod", "team.a..b")).
Proof.
  apply (setEnvironment_selector_round_trip Fixture.imports "prod" "team.a..b"
           (this Fixture.start) Fixture.project).
  - reflexivity.
  - reflexivity.
  - vm_compute. eauto.
Defined.

(** X8.  Reading back what was set: when [setEnvironment] returns a pair
    with a non-empty name, [getEnvironment] on the resulting context returns
    that name and namespace with what the environments of the project hold
    under that name (the environment block when the name is a key, the
    inherited member otherwise), and a later [setEnvironment] call that
    throws does not change this answer. *)
Theorem getEnvironment_after_setEnvironment
    (X : Imports) (selector : string) (g : GardenContext) (name ns : string) :
  (setEnvironment X selector g).1 = Return (name, ns) ->
  name <> "" ->
  let g' := (setEnvironment X selector g).2 in
  exists c found,
    config g = Some c /\ readMap name (environments c) = Some found
    /\ (forall block, found = Own block <-> environments c !! name = Some block)
    /\ getEnvironment g'
       = Return {| env_name := name; env_namespace := Some ns;
                   env_config := Some found |}
    /\ forall other, returned (setEnvironment X other g').1 = false ->
       getEnvironment (setEnvironment X other g').2 = getEnvironment g'.
Proof.
  unfold setEnvironment. intros Hret Hname.
  destruct (config g) as [c|] eqn:Hc; [|discriminate].
  destruct (readMap (hd "" (split_dot selector)) (environments c)) as [found|] eqn:Hfound;
    [|discriminate].
  cbn [fst snd] in *. injection Hret as Hn Hns. rewrite Hn in *. rewrite Hns in *.
  exists c, found. split; [reflexivity|]. split; [exact Hfound|]. split; [|split].
  - intros block. rewrite <- readMap_Own, Hfound. split; congruence.
  - unfold getEnvironment. cbn [environment withEnvironment truthy config namespace].
    destruct (String.eqb_spec name ""); [contradiction|]. now rewrite Hc, Hfound.
  - intros other. cbn [config withEnvironment]. rewrite Hc.
    destruct (readMap (hd "" (split_dot other)) (environments c));
      [discriminate|reflexivity].
Qed.

Lemma getEnvironment_after_setEnvironment_witness :
  let g' := (setEnvironment Fixture.imports "dev.alice" (this Fixture.start)).2 in
  exists c found,
    config (this Fixture.start) = Some c
    /\ readMap "dev" (environments c) = Some found
    /\ (forall block, found = Own block <-> environments c !! "dev" = Some block)
    /\ getEnvironment g'
       = Return {| env_name := "dev"; env_namespace := Some "alice";
                   env_config := Some found |}
    /\ forall other, returned (setEnvironment Fixture.imports other g').1 = false ->
       getEnvironment (setEnvironment Fixture.imports other g').2 = getEnvironment g'.
Proof.
  apply (getEnvironment_after_setEnvironment Fixture.imports "dev.alice"
           (this Fixture.start) "dev" "alice").
  - reflexivity.
  - discriminate.
Defined.

(** ** The service index *)

Lemma indexes_ok_reachable (X : Imports) (root : string) (s0 : Machine)
    (calls : list Call) :
  fresh X root = Return s0 -> indexes_ok X (this (run X calls s0)).
Proof.
  intros Hfresh. apply fresh_inv in Hfresh as (g0 & Hg0 & ->).
  apply constructor_ok in Hg0 as (_ & _ & _ & _ & _ & Hm & Hs & _).
  apply (run_invariant X (λ s, indexes_ok X (this s))).
  - intros s call. apply indexes_ok_step.
  - simpl. split.
    + rewrite Hm, Hs. split; intros [? ?]; discriminate.
    + intros ss Hss. congruence.
Qed.

(** X10.  [getServices] runs [getModules()] first: it leaves the context and
    the scan counter exactly as that call does and throws what that call
    throws; when that call returns, both indexes are set and [getServices]
    returns the service index, or for a list of names what [pick] makes of
    the service index and the list, never [undefined]. *)
Theorem getServices_follows_getModules
    (X : Imports) (root : string) (s0 : Machine) (calls : list Call)
    (fs : FileSystem) (names : option (list string)) :
  fresh X root = Return s0 ->
  let s := run X calls s0 in
  (getServices X fs names s).2 = (getModules X fs None s).2
  /\ (forall e, (getModules X fs None s).1 = Throw e ->
      (getServices X fs names s).1 = Throw e)
  /\ (returned (getModules X fs None s).1 = true ->
      exists ms ss,
        modules (this (getServices X fs names s).2) = Some ms
        /\ services (this (getServices X fs names s).2) = Some ss
        /\ (getServices X fs names s).1 = Return (Some (allOrPick ss names))).
Proof.
  intros Hfresh s.
  pose proof (indexes_ok_reachable X root s0 calls Hfresh) as [Hboth _]. fold s in Hboth.
  split; [apply getServices_state|]. split.
  - intros e He. unfold getServices.
    destruct (getModules X fs None s) as [[r|e'] s']; cbn [fst] in *; congruence.
  - intros Hret.
    assert (Hcached : exists ms ss, modules (this (getModules X fs None s).2) = Some ms
                                    /\ services (this (getModules X fs None s).2) = Some ss).
    { unfold getModules in *. destruct (modules (this s)) as [ms|] eqn:Hm.
      - cbn [snd]. destruct Hboth as [_ [ss Hss]]; [eauto|]. rewrite Hm. eauto.
      - destruct (indexItems _ _ _ _ _) as [[ms ss]|e]; cbn [fst snd] in *;
          [|discriminate]. simpl. eauto. }
    destruct Hcached as (ms & ss & Hms & Hss).
    unfold getServices.
    destruct (getModules X fs None s) as [[r|e'] s']; cbn [fst snd] in *;
      [|discriminate].
    rewrite Hss, Hms. exists ms, ss. now destruct names.
Qed.

Lemma getServices_follows_getModules_witness :
  let s := run Fixture.imports [SetEnvironment "dev"] Fixture.start in
  (getServices Fixture.imports Fixture.tree (Some ["web"]) s).2
  = (getModules Fixture.imports Fixture.tree None s).2
  /\ (forall e, (getModules Fixture.imports Fixture.tree None s).1 = Throw e ->
      (getServices Fixture.imports Fixture.tree (Some ["web"]) s).1 = Throw e)
  /\ (returned (getModules Fixture.imports Fixture.tree None s).1 = true ->
      exists ms ss,
        modules (this (getServices Fixture.imports Fixture.tree (Some ["web"]) s).2)
        = Some ms
        /\ services (this (getServices Fixture.imports Fixture.tree (Some ["web"]) s).2)
           = Some ss
        /\ (getServices Fixture.imports Fixture.tree (Some ["web"]) s).1
           = Return (Some (allOrPick ss (Some ["web"])))).
Proof.
  apply (getServices_follows_getModules Fixture.imports "/project" Fixture.start
           [SetEnvironment "dev"] Fixture.tree (Some ["web"])).
  exact fresh_fixture.
Defined.

(** ** What a discovery pass reads *)

Section Passes.
Variable X : Imports.

Lemma getActionHandler_agree (type : ActionName) (moduleType : option string)
    (g g' : GardenContext) :
  plugins g = plugins g' -> actionHandlers g = actionHandlers g' ->
  getActionHandler type moduleType g = getActionHandler type moduleType g'.
Proof.
  intros Hp Hh. unfold getActionHandler, getAllPlugins. now rewrite Hp, Hh.
Qed.

Lemma indexItem_other (fs : FileSystem) (g : GardenContext)
    (acc : gmap string GardenModule * gmap string Service) (item : string) :
  isDeclaration X item = false -> indexItem X fs g acc item = Return acc.
Proof. unfold isDeclaration, indexItem. now intros ->. Qed.

(** Items that are no declaration files do not count. *)
Lemma indexItems_filter (fs : FileSystem) (g : GardenContext) (items : list string)
    (acc : gmap string GardenModule * gmap string Service) :
  indexItems X fs g items acc
  = indexItems X fs g (List.filter (isDeclaration X) items) acc.
Proof.
  revert acc. induction items as [|item rest IH]; intros acc; [reflexivity|].
  cbn [List.filter indexItems].
  destruct (isDeclaration X item) eqn:E.
  - cbn [indexItems]. destruct (indexItem X fs g acc item); simpl; auto.
  - rewrite (indexItem_other fs g acc item E). simpl. apply IH.
Qed.

(** A pass depends on the context through its root and its registry only,
    and on the loader through the declarations it reaches only. *)
Lemma indexItems_agree (fs fs' : FileSystem) (g g' : GardenContext)
    (items : list string) (acc : gmap string GardenModule * gmap string Service) :
  projectRoot g = projectRoot g' -> plugins g = plugins g' ->
  actionHandlers g = actionHandlers g' ->
  (forall item, In item items -> isDeclaration X item = true ->
     loadModuleConfig fs (dir (parse X item)) = loadModuleConfig fs' (dir (parse X item))) ->
  indexItems X fs g items acc = indexItems X fs' g' items acc.
Proof.
  intros Hr Hp Hh. revert acc.
  induction items as [|item rest IH]; intros acc Hload; [reflexivity|].
  cbn [indexItems].
  assert (Hitem : indexItem X fs g acc item = indexItem X fs' g' acc item).
  { unfold indexItem.
    destruct (String.eqb (base (parse X item)) (MODULE_CONFIG_FILENAME X)) eqn:E;
      [|reflexivity].
    rewrite (Hload item) by (try (now left); exact E).
    destruct (loadModuleConfig fs' (dir (parse X item))) as [cfg|e]; [|reflexivity].
    simpl. rewrite Hr.
    now rewrite (getActionHandler_agree parseModule (Some (cfg_type cfg)) g g' Hp Hh). }
  rewrite Hitem. destruct (indexItem X fs' g' acc item); simpl; [|reflexivity].
  apply IH. intros i Hi. apply Hload. now right.
Qed.

End Passes.

(** X11.  Discovery reads module declaration files only: two project trees
    whose scans, ignored paths left out, hold the same declaration files in
    the same order, with the same declaration loaded for each, give the same
    result, the same indexes and the same scan count; the other files of the
    trees and the paths the ignore predicate rejects make no difference. *)
Theorem discovery_reads_declarations_only
    (X : Imports) (fs fs' : FileSystem) (names : option (list string)) (s : Machine) :
  List.filter (isDeclaration X) (scannedItems X fs (projectRoot (this s)))
  = List.filter (isDeclaration X) (scannedItems X fs' (projectRoot (this s))) ->
  (forall item, In item (scannedItems X fs (projectRoot (this s))) ->
     isDeclaration X item = true ->
     loadModuleConfig fs (dir (parse X item)) = loadModuleConfig fs' (dir (parse X item))) ->
  getModules X fs names s = getModules X fs' names s.
Proof.
  intros Hdecl Hload. unfold getModules.
  destruct (modules (this s)); [reflexivity|]. cbv zeta.
  rewrite (indexItems_filter X fs), (indexItems_filter X fs'), <- Hdecl.
  rewrite (indexItems_agree X fs fs' (this s) (this s)); try reflexivity.
  intros item Hin Hd. apply Hload; [|exact Hd]. now apply filter_In in Hin.
Qed.

Lemma discovery_reads_declarations_only_witness :
  getModules Fixture.imports Fixture.tree None Fixture.start
  = getModules Fixture.imports
      {| walk := ["/project/api/garden.yml"; "/project/node_modules/x/garden.yml";
                  "/project/web/garden.yml"; "/project/web/index.js"];
         ignores := λ p, String.prefix "node_modules" p;
         loadModuleConfig := loadModuleConfig Fixture.tree |}
      None Fixture.start.
Proof.
  apply discovery_reads_declarations_only.
  - reflexivity.
  - intros item Hin Hd. reflexivity.
Defined.

(** X12.  A project without module declarations has empty indexes, and
    they are cached like any other: the first [getModules] call scans, sets
    both indexes to the empty index and returns it (through [pick] when
    names are given), and a later call does the same from the cached empty
    index without scanning, whatever the tree then holds. *)
Theorem getModules_without_declarations
    (X : Imports) (fs : FileSystem) (names : option (list string)) (s : Machine) :
  modules (this s) = None ->
  (forall item, In item (scannedItems X fs (projectRoot (this s))) ->
     isDeclaration X item = false) ->
  let s' := {| this := withIndexes ∅ ∅ (this s); scanCount := S (scanCount s) |} in
  getModules X fs names s = (Return (allOrPick ∅ names), s')
  /\ forall fs' names',
       getModules X fs' names' s' = (Return (allOrPick ∅ names'), s').
Proof.
  intros Hm Hnone s'. split.
  - unfold getModules. rewrite Hm. cbv zeta. rewrite (indexItems_filter X fs).
    assert (Hfilter : List.filter (isDeclaration X)
                        (scannedItems X fs (projectRoot (this s))) = []).
    { induction (scannedItems X fs (projectRoot (this s))) as [|item rest IH];
        [reflexivity|].
      cbn [List.filter]. rewrite (Hnone item) by now left.
      apply IH. intros i Hi. apply Hnone. now right. }
    rewrite Hfilter. reflexivity.
  - intros fs' names'. apply (getModules_cached X fs' names' s' ∅ eq_refl).
Qed.

Lemma getModules_without_declarations_witness :
  let bare := {| walk := ["/project/README.md"; "/project/src/main.go"];
                 ignores := λ _, false;
                 loadModuleConfig := loadModuleConfig Fixture.tree |} in
  let s' := {| this := withIndexes ∅ ∅ (this Fixture.start);
               scanCount := S (scanCount Fixture.start) |} in
  getModules Fixture.imports bare (Some ["api"]) Fixture.start
  = (Return (allOrPick ∅ (Some ["api"])), s')
  /\ forall fs' names',
       getModules Fixture.imports fs' names' s' = (Return (allOrPick ∅ names'), s').
Proof.
  apply getModules_without_declarations.
  - reflexivity.
  - intros item Hin. vm_compute in Hin.
    destruct Hin as [<-|[<-|[]]]; reflexivity.
Defined.

(** ** What a successful pass has indexed *)

Section Completeness.
Variable X : Imports.
Variable fs : FileSystem.
Variable g : GardenContext.

(** The service loop never overwrites an entry. *)
Lemma addServices_keeps (module : GardenModule) (moduleName : string)
    (entries : JsObject.t Any) (ss ss' : gmap string Service)
    (sn : string) (svc : Service) :
  addServices module moduleName entries ss = Return ss' ->
  ss !! sn = Some svc -> ss' !! sn = Some svc.
Proof.
  revert ss. induction entries as [|[k v] rest IH]; intros ss; simpl.
  - now intros [= <-].
  - destruct (readMap k ss) as [[s|i]|] eqn:Hk; [discriminate..|].
    apply readMap_None in Hk as [Hk _]. intros Hadd Hsn.
    apply (IH _ Hadd). rewrite lookup_insert_ne; [exact Hsn|]. congruence.
Qed.

(** Every entry the loop went through is indexed with its module. *)
Lemma addServices_adds (module : GardenModule) (moduleName : string)
    (entries : JsObject.t Any) (ss ss' : gmap string Service)
    (sn : string) (v : Any) :
  addServices module moduleName entries ss = Return ss' ->
  In (sn, v) entries ->
  ss' !! sn = Some {| svc_module := module; svc_config := v |}.
Proof.
  revert ss. induction entries as [|[k w] rest IH]; intros ss; simpl; [tauto|].
  destruct (readMap k ss) as [[s|i]|] eqn:Hk; [discriminate..|].
  intros Hadd [[= -> ->]|Hin].
  - apply (addServices_keeps _ _ _ _ _ _ _ Hadd). apply lookup_insert_eq.
  - now apply (IH _ Hadd).
Qed.

(** What indexing one declaration file does when it goes through. *)
Lemma indexItem_adds (acc acc' : gmap string GardenModule * gmap string Service)
    (item : string) :
  isDeclaration X item = true ->
  indexItem X fs g acc item = Return acc' ->
  exists cfg h,
    loadModuleConfig fs (dir (parse X item)) = Return cfg
    /\ acc.1 !! cfg_name cfg = None
    /\ getActionHandler parseModule (Some (cfg_type cfg)) g = Return (Some h)
    /\ acc'.1 = <[cfg_name cfg := bound_fn h cfg]> acc.1
    /\ addServices (bound_fn h cfg) (cfg_name cfg) (default [] (cfg_services cfg)) acc.2
       = Return acc'.2.
Proof.
  unfold isDeclaration, indexItem. intros ->.
  destruct (loadModuleConfig fs (dir (parse X item))) as [cfg|e]; simpl; [|discriminate].
  destruct (readMap (cfg_name cfg) acc.1) eqn:Hnew; [discriminate|].
  apply readMap_None in Hnew as [Hnew _].
  destruct (getActionHandler parseModule (Some (cfg_type cfg)) g) as [[h|]|e] eqn:Hh;
    simpl; try discriminate.
  destruct (addServices _ _ _ _) as [ss'|e] eqn:Hadd; simpl; [|discriminate].
  intros [= <-]. exists cfg, h. cbn [fst snd]. repeat split; auto.
Qed.

Lemma indexItem_keeps (acc acc' : gmap string GardenModule * gmap string Service)
    (item : string) :
  indexItem X fs g acc item = Return acc' ->
  (forall n m, acc.1 !! n = Some m -> acc'.1 !! n = Some m)
  /\ (forall sn svc, acc.2 !! sn = Some svc -> acc'.2 !! sn = Some svc).
Proof.
  intros Hitem. destruct (isDeclaration X item) eqn:E.
  - destruct (indexItem_adds acc acc' item E Hitem)
      as (cfg & h & _ & Hnew & _ & Hms & Hadd). split.
    + intros n m Hn. rewrite Hms, lookup_insert_ne; [exact Hn|]. congruence.
    + intros sn svc Hsn. now apply (addServices_keeps _ _ _ _ _ _ _ Hadd).
  - rewrite (indexItem_other X fs g acc item E) in Hitem. injection Hitem as <-. auto.
Qed.

Lemma indexItems_keeps (items : list string)
    (acc acc' : gmap string GardenModule * gmap string Service) :
  indexItems X fs g items acc = Return acc' ->
  (forall n m, acc.1 !! n = Some m -> acc'.1 !! n = Some m)
  /\ (forall sn svc, acc.2 !! sn = Some svc -> acc'.2 !! sn = Some svc).
Proof.
  revert acc. induction items as [|item rest IH]; intros acc; simpl.
  - intros [= <-]. auto.
  - destruct (indexItem X fs g acc item) as [acc1|e] eqn:Hitem; simpl; [|discriminate].
    intros Hrest. destruct (indexItem_keeps _ _ _ Hitem) as [Hm Hs].
    destruct (IH _ Hrest) as [Hm' Hs']. split; auto.
Qed.

(** The module and the services of one declaration, as a pass indexes
    them. *)
Definition indexed (ms : gmap string GardenModule) (ss : gmap string Service)
    (item : string) : Prop :=
  exists cfg h,
    loadModuleConfig fs (dir (parse X item)) = Return cfg
    /\ getActionHandler parseModule (Some (cfg_type cfg)) g = Return (Some h)
    /\ ms !! cfg_name cfg = Some (bound_fn h cfg)
    /\ forall sn v, In (sn, v) (default [] (cfg_services cfg)) ->
       ss !! sn = Some {| svc_module := bound_fn h cfg; svc_config := v |}.

Lemma indexItems_complete (items : list string)
    (acc acc' : gmap string GardenModule * gmap string Service) :
  indexItems X fs g items acc = Return acc' ->
  forall item, In item items -> isDeclaration X item = true ->
  indexed acc'.1 acc'.2 item.
Proof.
  revert acc. induction items as [|first rest IH]; intros acc; simpl; [tauto|].
  destruct (indexItem X fs g acc first) as [acc1|e] eqn:Hfirst; simpl; [|discriminate].
  intros Hrest item [<-|Hin] Hd; [|now apply (IH acc1)].
  destruct (indexItem_adds acc acc1 first Hd Hfirst)
    as (cfg & h & Hload & _ & Hh & Hms & Hadd).
  destruct (indexItems_keeps rest acc1 acc' Hrest) as [Hm Hs].
  exists cfg, h. split; [exact Hload|]. split; [exact Hh|]. split.
  - apply Hm. rewrite Hms. apply lookup_insert_eq.
  - intros sn v Hin. apply Hs. now apply (addServices_adds _ _ _ _ _ _ _ Hadd).
Qed.

(** Every indexed module was parsed from a declaration of the pass. *)
Definition modules_from (items : list string) (ms : gmap string GardenModule) : Prop :=
  forall n m, ms !! n = Some m ->
  exists item cfg h,
    In item items /\ isDeclaration X item = true
    /\ loadModuleConfig fs (dir (parse X item)) = Return cfg
    /\ cfg_name cfg = n
    /\ getActionHandler parseModule (Some (cfg_type cfg)) g = Return (Some h)
    /\ m = bound_fn h cfg.

Lemma indexItems_modules_from (items rest : list string)
    (acc acc' : gmap string GardenModule * gmap string Service) :
  (forall item, In item rest -> In item items) ->
  modules_from items acc.1 ->
  indexItems X fs g rest acc = Return acc' -> modules_from items acc'.1.
Proof.
  revert acc. induction rest as [|first rest IH]; intros acc Hsub Hacc; simpl.
  - now intros [= <-].
  - destruct (indexItem X fs g acc first) as [acc1|e] eqn:Hfirst; simpl; [|discriminate].
    apply IH; [intros i Hi; apply Hsub; now right|].
    destruct (isDeclaration X first) eqn:Hd.
    + destruct (indexItem_adds acc acc1 first Hd Hfirst)
        as (cfg & h & Hload & _ & Hh & Hms & _).
      intros n m. rewrite Hms, lookup_insert.
      destruct (decide (cfg_name cfg = n)) as [<-|_]; [|apply Hacc].
      intros [= <-]. exists first, cfg, h. repeat split; auto. apply Hsub. now left.
    + rewrite (indexItem_other X fs g acc first Hd) in Hfirst.
      injection Hfirst as <-. exact Hacc.
Qed.

End Completeness.

(** X13.  A discovery pass that returns has indexed every declaration it
    scanned and nothing else.  For each scanned declaration file the loader
    returned a declaration, the parse handler resolved for its type produced
    a module, the module index holds that module under the declared name,
    and the service index holds each service of the declaration with that
    module and its own configuration; and every module of the index is the
    module so parsed from a scanned declaration of that name. *)
Theorem discovery_indexes_every_declaration
    (X : Imports) (fs : FileSystem) (names : option (list string)) (s : Machine) :
  modules (this s) = None ->
  returned (getModules X fs names s).1 = true ->
  let items := scannedItems X fs (projectRoot (this s)) in
  exists ms ss,
    (getModules X fs names s).1 = Return (allOrPick ms names)
    /\ modules (this (getModules X fs names s).2) = Some ms
    /\ services (this (getModules X fs names s).2) = Some ss
    /\ (forall item, In item items -> isDeclaration X item = true ->
        indexed X fs (this s) ms ss item)
    /\ modules_from X fs (this s) items ms.
Proof.
  intros Hm Hret items. unfold getModules in *. rewrite Hm in *. cbv zeta in *.
  fold items in Hret |- *.
  destruct (indexItems X fs (this s) items (∅, ∅)) as [[ms ss]|e] eqn:Hpass;
    cbn [fst snd] in *; [|discriminate].
  exists ms, ss. repeat (split; [reflexivity|]). split.
  - intros item Hin Hd.
    exact (indexItems_complete X fs (this s) items (∅, ∅) (ms, ss) Hpass item Hin Hd).
  - refine (indexItems_modules_from X fs (this s) items items (∅, ∅) (ms, ss) _ _ Hpass).
    + auto.
    + intros n m Hn. simpl in Hn. now rewrite lookup_empty in Hn.
Qed.

Lemma discovery_indexes_every_declaration_witness :
  let items := scannedItems Fixture.imports Fixture.tree
                 (projectRoot (this Fixture.start)) in
  exists ms ss,
    (getModules Fixture.imports Fixture.tree None Fixture.start).1
    = Return (allOrPick ms None)
    /\ modules (this (getModules Fixture.imports Fixture.tree None Fixture.start).2)
       = Some ms
    /\ services (this (getModules Fixture.imports Fixture.tree None Fixture.start).2)
       = Some ss
    /\ (forall item, In item items -> isDeclaration Fixture.imports item = true ->
        indexed Fixture.imports Fixture.tree (this Fixture.start) ms ss item)
    /\ modules_from Fixture.imports Fixture.tree (this Fixture.start) items ms.
Proof.
  apply (discovery_indexes_every_declaration Fixture.imports Fixture.tree None
           Fixture.start).
  - reflexivity.
  - vm_compute. reflexivity.
Defined.

(** ** Failures of a pass *)

Lemma firstHandler_unimplemented (type : ActionName) (h : PluginActionMap)
    (ps : list PluginInterface) :
  (forall p, In p ps -> implements p type = false) ->
  firstHandler type h ps = None.
Proof.
  induction ps as [|p rest IH]; intros Hps; [reflexivity|]. simpl.
  rewrite (Hps p) by now left. simpl. apply IH. intros q Hq. apply Hps. now right.
Qed.

(** X14.  In a discovery pass that has indexed the items before a
    declaration file without error: when the loader throws for that file,
    [getModules] throws the loader's error unchanged; and when the loader
    returns a declaration whose name is new and is not the name of a member
    that every object inherits, and whose type no registered plugin parses,
    [getModules] throws the ParameterError of global resolution, carrying
    the capability parse-module and the declared type.  Either way nothing
    is cached and the scan is counted. *)
Theorem discovery_propagates_failures
    (X : Imports) (fs : FileSystem) (names : option (list string)) (s : Machine)
    (pre post : list string) (item : string)
    (acc : gmap string GardenModule * gmap string Service) :
  modules (this s) = None ->
  scannedItems X fs (projectRoot (this s)) = (pre ++ item :: post)%list ->
  indexItems X fs (this s) pre (∅, ∅) = Return acc ->
  isDeclaration X item = true ->
  let failed := {| this := this s; scanCount := S (scanCount s) |} in
  (forall e, loadModuleConfig fs (dir (parse X item)) = Throw e ->
     getModules X fs names s = (Throw e, failed))
  /\ (forall cfg,
      loadModuleConfig fs (dir (parse X item)) = Return cfg ->
      acc.1 !! cfg_name cfg = None -> inherited (cfg_name cfg) = false ->
      (forall p, In p (getAllPlugins (Some (cfg_type cfg)) (this s)) ->
         implements p parseModule = false) ->
      exists msg,
        getModules X fs names s
        = (Throw (ParameterError msg
                    (HandlerDetail parseModule (Some (cfg_type cfg)))), failed)).
Proof.
  intros Hm Hscan Hpre Hd failed.
  assert (Hpass : forall e, indexItem X fs (this s) acc item = Throw e ->
            getModules X fs names s = (Throw e, failed)).
  { intros e He. apply getModules_throws; [exact Hm|].
    rewrite Hscan, indexItems_app, Hpre. simpl. now rewrite He. }
  unfold isDeclaration in Hd. split.
  - intros e Hload. apply Hpass. unfold indexItem. now rewrite Hd, Hload.
  - intros cfg Hload Hnew Hown Hnone.
    assert (Hread : readMap (cfg_name cfg) acc.1 = None)
      by (apply readMap_None; auto).
    eexists. apply Hpass.
    unfold indexItem. rewrite Hd, Hload. simpl. rewrite Hread.
    unfold getActionHandler. rewrite (firstHandler_unimplemented _ _ _ Hnone).
    reflexivity.
Qed.

Lemma discovery_propagates_failures_witness :
  let odd := {| walk := ["/project/api/garden.yml"; "/project/job/garden.yml";
                         "/project/lost/garden.yml"];
                ignores := λ _, false;
                loadModuleConfig := λ d,
                  if String.eqb d "/project/job"
                  then Return (Fixture.declaration "job" "cron" [])
                  else loadModuleConfig Fixture.tree d |} in
  exists msg,
    getModules Fixture.imports odd None Fixture.start
    = (Throw (ParameterError msg (HandlerDetail parseModule (Some "cron"))),
       {| this := this Fixture.start; scanCount := 1 |}).
Proof.
  intros odd.
  pose (api := Fixture.declaration "api" "container" ["api"]).
  refine (proj2
    (discovery_propagates_failures Fixture.imports odd None Fixture.start
       ["/project/api/garden.yml"] ["/project/lost/garden.yml"]
       "/project/job/garden.yml"
       (<["api" := Fixture.parseUnder "/project" api]> ∅,
        <["api" := {| svc_module := Fixture.parseUnder "/project" api;
                      svc_config := "{}" |}]> ∅)
       _ _ _ _)
    (Fixture.declaration "job" "cron" []) _ _ _ _); try reflexivity.
  intros p Hp. vm_compute in Hp. destruct Hp.
Defined.

(** ** What does not change a resolution *)

Lemma step_registry (X : Imports) (s : Machine) (call : Call) :
  (forall f, call <> RegisterPlugin f) ->
  plugins (this (step X s call)) = plugins (this s)
  /\ actionHandlers (this (step X s call)) = actionHandlers (this s).
Proof.
  intros Hc.
  destruct (step_state X s call)
    as [->|[(f & ps & h & E & _)|[(sel & n & ns & _ & ->)|(ms & ss & _ & ->)]]];
    auto.
  now destruct (Hc f).
Qed.

Lemma run_registry (X : Imports) (calls : list Call) (s : Machine) :
  registersNothing calls ->
  plugins (this (run X calls s)) = plugins (this s)
  /\ actionHandlers (this (run X calls s)) = actionHandlers (this s).
Proof.
  revert s. induction calls as [|call rest IH]; intros s Hno; [auto|].
  change (run X (call :: rest) s) with (run X rest (step X s call)).
  destruct (IH (step X s call)) as [Hp Hh].
  { intros f Hin. apply (Hno f). now right. }
  destruct (step_registry X s call) as [Hp' Hh'].
  { intros f ->. apply (Hno f). now left. }
  split; congruence.
Qed.

(** X15.  Only a registration changes what is resolved: through calls that
    register no plugin (setting environments, discovering modules and
    services, resolving handlers) the registry stays as it is, and global
    resolution gives the same answer for every request. *)
Theorem resolution_unchanged_without_registration
    (X : Imports) (calls : list Call) (s : Machine)
    (type : ActionName) (moduleType : option string) :
  registersNothing calls ->
  getAllPlugins moduleType (this (run X calls s)) = getAllPlugins moduleType (this s)
  /\ getActionHandler type moduleType (this (run X calls s))
     = getActionHandler type moduleType (this s).
Proof.
  intros Hno. destruct (run_registry X calls s Hno) as [Hp Hh]. split.
  - unfold getAllPlugins. now rewrite Hp.
  - now apply getActionHandler_agree.
Qed.

Lemma resolution_unchanged_without_registration_witness :
  let calls := [SetEnvironment "prod"; GetModules Fixture.tree None;
                GetEnvActionHandler buildModule None] in
  getAllPlugins (Some "generic") (this (run Fixture.imports calls Fixture.start))
  = getAllPlugins (Some "generic") (this Fixture.start)
  /\ getActionHandler parseModule (Some "generic")
       (this (run Fixture.imports calls Fixture.start))
     = getActionHandler parseModule (Some "generic") (this Fixture.start).
Proof.
  apply resolution_unchanged_without_registration.
  intros f [H|[H|[H|[]]]]; discriminate H.
Defined.

(** X16.  Discovery does not depend on the active environment: a pass run
    after a [setEnvironment] call, whether that call returned or threw,
    gives the same result, the same module index and the same service index
    as the pass run without it. *)
Theorem discovery_ignores_environment
    (X : Imports) (fs : FileSystem) (names : option (list string)) (s : Machine)
    (selector : string) :
  let s' := step X s (SetEnvironment selector) in
  (getModules X fs names s').1 = (getModules X fs names s).1
  /\ modules (this (getModules X fs names s').2)
     = modules (this (getModules X fs names s).2)
  /\ services (this (getModules X fs names s').2)
     = services (this (getModules X fs names s).2)
  /\ scanCount (getModules X fs names s').2 = scanCount (getModules X fs names s).2.
Proof.
  intros s'.
  assert (Hthis : this s' = this s
                  \/ exists name ns, this s' = withEnvironment name ns (this s)).
  { subst s'. cbn [step this]. apply setEnvironment_state. }
  assert (Hfields : projectRoot (this s') = projectRoot (this s)
                    /\ plugins (this s') = plugins (this s)
                    /\ actionHandlers (this s') = actionHandlers (this s)
                    /\ modules (this s') = modules (this s)
                    /\ services (this s') = services (this s)).
  { destruct Hthis as [->|(name & ns & ->)]; auto 6. }
  destruct Hfields as (Hr & Hp & Hh & Hm & Hs).
  assert (Hc : scanCount s' = scanCount s) by reflexivity.
  unfold getModules. rewrite Hm, Hc, Hr.
  destruct (modules (this s)) as [ms|] eqn:E.
  - cbn [fst snd]. rewrite Hm, Hs. auto.
  - cbv zeta. rewrite (indexItems_agree X fs fs (this s') (this s)); auto.
    destruct (indexItems _ _ _ _ _) as [[ms ss]|e]; cbn [fst snd this scanCount].
    + auto.
    + rewrite Hm, Hs. auto.
Qed.

(** ** Earlier plugins win *)

Lemma restrictNonEmpty_app (moduleType : option string) (l l' : list PluginInterface) :
  restrictNonEmpty moduleType (l ++ l')
  = (restrictNonEmpty moduleType l ++ restrictNonEmpty moduleType l')%list.
Proof.
  unfold restrictNonEmpty. destruct moduleType as [t|]; [|reflexivity].
  destruct (String.eqb t ""); [reflexivity|apply List.filter_app].
Qed.

Lemma firstImplementing_app (type : ActionName) (l l' : list PluginInterface)
    (p : PluginInterface) :
  firstImplementing type l = Some p -> firstImplementing type (l ++ l') = Some p.
Proof.
  unfold firstImplementing. induction l as [|q rest IH]; simpl; [discriminate|].
  destruct (implements q type); auto.
Qed.

(** X17.  A registration never takes a resolution away from an earlier
    plugin: once global resolution returns a handler for a request, it
    returns the same handler for that request after any further calls,
    whatever plugins they register.  The identifier grammar is assumed to
    admit no array index. *)
Theorem earlier_plugin_keeps_resolution
    (X : Imports) (root : string) (s0 : Machine) (pre calls : list Call)
    (type : ActionName) (moduleType : option string)
    (h : option (BoundHandler type)) :
  (forall k, JoiIdentifier X k = true -> JsObject.arrayIndex k = None) ->
  fresh X root = Return s0 ->
  getActionHandler type moduleType (this (run X pre s0)) = Return h ->
  getActionHandler type moduleType (this (run X (pre ++ calls) s0)) = Return h.
Proof.
  intros Hidx Hfresh Hbefore.
  pose proof (getActionHandler_registered X _ type moduleType
                (registry_ok_reachable X root s0 pre Hfresh)) as H1.
  pose proof (getActionHandler_registered X _ type moduleType
                (registry_ok_reachable X root s0 (pre ++ calls) Hfresh)) as H2.
  unfold resolvesAmong in H1, H2.
  rewrite getAllPlugins_restrict in H1, H2.
  rewrite run_app, (values_run X Hidx calls (run X pre s0)), restrictNonEmpty_app in H2.
  destruct (firstImplementing type
              (restrictNonEmpty moduleType
                 (JsObject.values (plugins (this (run X pre s0)))))) as [p|] eqn:E.
  - rewrite (firstImplementing_app type _ _ p E) in H2.
    destruct H1 as [H1 _], H2 as [H2 _]. rewrite <- run_app in H2. congruence.
  - destruct H1 as [msg H1]. congruence.
Qed.

Lemma earlier_plugin_keeps_resolution_witness :
  getActionHandler buildModule (Some "container")
    (this (run Fixture.imports ([] ++ [RegisterPlugin (λ _, Fixture.kube)])
             Fixture.start))
  = Return (boundHandler Fixture.container buildModule).
Proof.
  apply (earlier_plugin_keeps_resolution Fixture.imports "/project").
  - exact identifier_not_index.
  - exact fresh_fixture.
  - reflexivity.
Defined.

(** ** Names in a successful pass *)

Section Uniqueness.
Variable X : Imports.
Variable fs : FileSystem.
Variable g : GardenContext.

(** The service loop goes through only if every name it meets is new. *)
Lemma addServices_fresh (module : GardenModule) (moduleName : string)
    (entries : JsObject.t Any) (ss ss' : gmap string Service)
    (sn : string) (v : Any) :
  addServices module moduleName entries ss = Return ss' ->
  In (sn, v) entries -> ss !! sn = None.
Proof.
  revert ss. induction entries as [|[k w] rest IH]; intros ss; simpl; [tauto|].
  destruct (readMap k ss) as [[s|i]|] eqn:Hk; [discriminate..|].
  apply readMap_None in Hk as [Hk _]. intros Hadd [[= -> ->]|Hin];
    [exact Hk|].
  pose proof (IH _ Hadd Hin) as Hnone.
  apply lookup_insert_None in Hnone. tauto.
Qed.

Lemma indexItems_split (pre post : list string) (item : string)
    (acc acc' : gmap string GardenModule * gmap string Service) :
  indexItems X fs g (pre ++ item :: post) acc = Return acc' ->
  exists acc1 acc2,
    indexItems X fs g pre acc = Return acc1
    /\ indexItem X fs g acc1 item = Return acc2
    /\ indexItems X fs g post acc2 = Return acc'.
Proof.
  rewrite indexItems_app.
  destruct (indexItems X fs g pre acc) as [acc1|e]; simpl; [|discriminate].
  destruct (indexItem X fs g acc1 item) as [acc2|e] eqn:Hitem; simpl; [|discriminate].
  eauto.
Qed.

(** Two declarations that one pass indexed have different names and share no
    service name. *)
Lemma indexItems_distinct (l1 l2 l3 : list string) (a b : string)
    (acc acc' : gmap string GardenModule * gmap string Service)
    (cfgA cfgB : ModuleConfig) :
  indexItems X fs g (l1 ++ a :: l2 ++ b :: l3) acc = Return acc' ->
  isDeclaration X a = true -> isDeclaration X b = true ->
  loadModuleConfig fs (dir (parse X a)) = Return cfgA ->
  loadModuleConfig fs (dir (parse X b)) = Return cfgB ->
  cfg_name cfgA <> cfg_name cfgB
  /\ forall sn, In sn (JsObject.keys (default [] (cfg_services cfgA))) ->
                ~ In sn (JsObject.keys (default [] (cfg_services cfgB))).
Proof.
  intros Hpass Ha Hb HcfgA HcfgB.
  apply indexItems_split in Hpass as (acc1 & acc2 & _ & HitemA & Hrest).
  apply indexItems_split in Hrest as (acc3 & acc4 & Hl2 & HitemB & _).
  destruct (indexItem_adds X fs g acc1 acc2 a Ha HitemA)
    as (cfg & h & Hload & _ & _ & Hms & Hadd).
  rewrite HcfgA in Hload. injection Hload as <-.
  destruct (indexItem_adds X fs g acc3 acc4 b Hb HitemB)
    as (cfg & h' & Hload & Hnew & _ & _ & Hadd').
  rewrite HcfgB in Hload. injection Hload as <-.
  destruct (indexItems_keeps X fs g l2 acc2 acc3 Hl2) as [Hm Hs]. split.
  - intros Heq. rewrite <- Heq in Hnew.
    rewrite (Hm (cfg_name cfgA) (bound_fn h cfgA)) in Hnew; [discriminate|].
    rewrite Hms. apply lookup_insert_eq.
  - intros sn HinA HinB.
    apply in_map_iff in HinA as ([k v] & Hk & HinA). simpl in Hk. subst k.
    apply in_map_iff in HinB as ([k w] & Hk & HinB). simpl in Hk. subst k.
    pose proof (addServices_fresh _ _ _ _ _ _ _ Hadd' HinB) as Hnone.
    rewrite (Hs sn _ (addServices_adds _ _ _ _ _ _ _ Hadd HinA)) in Hnone.
    discriminate.
Qed.

End Uniqueness.

(** X18.  A discovery pass that returns has met no name twice: any two
    declaration files of the scan carry declarations with different module
    names and with no service name in common. *)
Theorem discovery_success_means_unique_names
    (X : Imports) (fs : FileSystem) (names : option (list string)) (s : Machine)
    (l1 l2 l3 : list string) (a b : string) (cfgA cfgB : ModuleConfig) :
  modules (this s) = None ->
  returned (getModules X fs names s).1 = true ->
  scannedItems X fs (projectRoot (this s)) = (l1 ++ a :: l2 ++ b :: l3)%list ->
  isDeclaration X a = true -> isDeclaration X b = true ->
  loadModuleConfig fs (dir (parse X a)) = Return cfgA ->
  loadModuleConfig fs (dir (parse X b)) = Return cfgB ->
  cfg_name cfgA <> cfg_name cfgB
  /\ forall sn, In sn (JsObject.keys (default [] (cfg_services cfgA))) ->
                ~ In sn (JsObject.keys (default [] (cfg_services cfgB))).
Proof.
  intros Hm Hret Hscan Ha Hb HcfgA HcfgB.
  unfold getModules in Hret. rewrite Hm in Hret. cbv zeta in Hret.
  rewrite Hscan in Hret.
  destruct (indexItems X fs (this s) (l1 ++ a :: l2 ++ b :: l3) (∅, ∅))
    as [acc'|e] eqn:Hpass; [|discriminate].
  exact (indexItems_distinct X fs (this s) l1 l2 l3 a b (∅, ∅) acc' cfgA cfgB
           Hpass Ha Hb HcfgA HcfgB).
Qed.

Lemma discovery_success_means_unique_names_witness :
  cfg_name (Fixture.declaration "api" "container" ["api"])
  <> cfg_name (Fixture.declaration "web" "generic" ["web"])
  /\ forall sn,
       In sn (JsObject.keys
                (default [] (cfg_services (Fixture.declaration "api" "container" ["api"])))) ->
       ~ In sn (JsObject.keys
                  (default [] (cfg_services (Fixture.declaration "web" "generic" ["web"])))).
Proof.
  apply (discovery_success_means_unique_names Fixture.imports Fixture.tree None
           Fixture.start ["/project/README.md"] ["/project/api/main.go"] []
           "/project/api/garden.yml" "/project/web/garden.yml");
    reflexivity.
Defined.

(** ** A failed pass *)

(** [getModules] reads the scan counter only to increment it. *)
Lemma getModules_this (X : Imports) (fs : FileSystem) (names : option (list string))
    (s1 s2 : Machine) :
  this s1 = this s2 ->
  (getModules X fs names s1).1 = (getModules X fs names s2).1
  /\ this (getModules X fs names s1).2 = this (getModules X fs names s2).2.
Proof.
  intros H. unfold getModules. rewrite H.
  destruct (modules (this s2)); [auto|]. cbv zeta.
  destruct (indexItems X fs (this s2) (scannedItems X fs (projectRoot (this s2))) (∅, ∅))
    as [[ms ss]|e]; auto.
Qed.

(** X19.  A [getModules] or [getServices] call that throws leaves the
    context exactly as it was: no index is set, nothing else is touched, and
    a later [getModules] call gives the result and the indexes it would have
    given without the failed call. *)
Theorem failed_discovery_leaves_context
    (X : Imports) (fs : FileSystem) (names : option (list string)) (s : Machine) :
  (returned (getModules X fs names s).1 = false ->
   this (getModules X fs names s).2 = this s
   /\ forall fs' names',
        (getModules X fs' names' (getModules X fs names s).2).1
        = (getModules X fs' names' s).1
        /\ this (getModules X fs' names' (getModules X fs names s).2).2
           = this (getModules X fs' names' s).2)
  /\ (returned (getServices X fs names s).1 = false ->
      this (getServices X fs names s).2 = this s).
Proof.
  assert (Hfail : forall ns, returned (getModules X fs ns s).1 = false ->
            this (getModules X fs ns s).2 = this s).
  { intros ns. unfold getModules. destruct (modules (this s)); [discriminate|].
    cbv zeta.
    destruct (indexItems X fs (this s) (scannedItems X fs (projectRoot (this s))) (∅, ∅))
      as [[ms ss]|e]; [discriminate|].
    reflexivity. }
  split.
  - intros Hret. pose proof (Hfail names Hret) as Hthis. split; [exact Hthis|].
    intros fs' names'. now apply getModules_this.
  - intros Hret. rewrite getServices_state. apply Hfail.
    unfold getServices in Hret.
    destruct (getModules X fs None s) as [[r|e] s']; [discriminate|reflexivity].
Qed.

Lemma failed_discovery_leaves_context_witness :
  this (getModules Fixture.imports Fixture.twice None Fixture.start).2
  = this Fixture.start
  /\ forall fs' names',
       (getModules Fixture.imports fs' names'
          (getModules Fixture.imports Fixture.twice None Fixture.start).2).1
       = (getModules Fixture.imports fs' names' Fixture.start).1
       /\ this (getModules Fixture.imports fs' names'
                  (getModules Fixture.imports Fixture.twice None Fixture.start).2).2
          = this (getModules Fixture.imports fs' names' Fixture.start).2.
Proof.
  apply (proj1 (failed_discovery_leaves_context Fixture.imports Fixture.twice None
                  Fixture.start)).
  vm_compute. reflexivity.
Defined.

(** ** The two resolutions together *)

Lemma firstImplementing_filter (type : ActionName) (keep : PluginInterface -> bool)
    (l : list PluginInterface) (p : PluginInterface) :
  firstImplementing type l = Some p -> keep p = true ->
  firstImplementing type (List.filter keep l) = Some p.
Proof.
  unfold firstImplementing. induction l as [|q rest IH]; simpl; [discriminate|].
  destruct (implements q type) eqn:Hq.
  - intros [= ->] Hkeep. rewrite Hkeep. simpl. now rewrite Hq.
  - intros Hfind Hkeep. destruct (keep q); simpl; [rewrite Hq|]; auto.
Qed.

(** X20.  The environment only narrows the choice: with an active
    environment, when the handler global resolution returns belongs to a
    plugin whose name is one of the provider types of that environment,
    environment-scoped resolution returns the same handler for the same
    request. *)
Theorem env_resolution_agrees_with_global
    (X : Imports) (root : string) (s0 : Machine) (calls : list Call)
    (type : ActionName) (moduleType : option string)
    (env : Environment) (block : EnvironmentConfig) (h : BoundHandler type) :
  fresh X root = Return s0 ->
  let g := this (run X calls s0) in
  getEnvironment g = Return env -> env_config env = Some (Own block) ->
  getActionHandler type moduleType g = Return (Some h) ->
  providerTypes block (plugin_name (bound_this h)) ->
  getEnvActionHandler type moduleType g = Return (Some h).
Proof.
  intros Hfresh g Henv Hblock Hglobal Henabled.
  pose proof (registry_ok_reachable X root s0 calls Hfresh) as Hok. fold g in Hok.
  pose proof (getActionHandler_registered X g type moduleType Hok) as Hres.
  unfold resolvesAmong in Hres.
  destruct (firstImplementing type (getAllPlugins moduleType g)) as [p|] eqn:E.
  2:{ destruct Hres as [msg Hres]. congruence. }
  destruct Hres as [Hres _]. rewrite Hres in Hglobal. injection Hglobal as Hb.
  pose proof (boundHandler_Some p type h Hb) as [Hp _]. rewrite Hp in Henabled.
  apply inProviderTypes_spec in Henabled.
  destruct (getEnvActionHandler_registered X g type moduleType env (Own block)
              Hok Henv Hblock) as [_ Hscoped].
  rewrite (firstImplementing_filter type
             (λ q, enabledIn (Own block) (plugin_name q)) _ p E Henabled) in Hscoped.
  destruct Hscoped as [-> _]. now rewrite Hb.
Qed.

Lemma env_resolution_agrees_with_global_witness :
  let g := this (run Fixture.imports [SetEnvironment "dev"] Fixture.start) in
  getEnvActionHandler buildModule (Some "container") g
  = Return (Some (Build_BoundHandler buildModule Fixture.container
                    (λ m, "image " ++ mod_name m))).
Proof.
  apply (env_resolution_agrees_with_global Fixture.imports "/project" Fixture.start
           [SetEnvironment "dev"] buildModule (Some "container")
           {| env_name := "dev"; env_namespace := Some "default";
              env_config := readMap "dev" (environments Fixture.project) |}
           {| providers := <["docker" := {| provider_type := "container" |}]> ∅ |}).
  - exact fresh_fixture.
  - reflexivity.
  - reflexivity.
  - reflexivity.
  - exists "docker", {| provider_type := "container" |}. split; reflexivity.
Defined.
